(** * OpenAI functions agent: a shallow embedding of
      [langchain/agents/openai_functions_agent/base.py]

    The module is glue between a chat model with function calling and an
    agent loop.  Its effects are the calls it makes to the language model and
    the Python exceptions it raises; both are explicit here: a computation is
    a function from the log of model calls made so far to an outcome (a value
    or a raised exception) and the extended log.

    Keyword mappings ([**kwargs]) are finite maps from names to Python values.
    The [kwargs] of [plan], [aplan] and [return_stopped_response] is the
    mapping after Python has bound the explicit parameters of that function;
    a call that passes a mapping on ([f(steps, **kw)]) is modelled with the
    binding Python performs: entries named after parameters of the callee
    are bound to them, or clash with arguments already given. *)

From Stdlib Require Import String Ascii ZArith List Lia.
From stdpp Require Import base option list sorting strings pretty gmap fin_maps.

#[local] Set Warnings "-clear-no-such-hyp".

(** ** Data model *)

(** Decoded JSON, the [tool_input] of an action. *)
#[warnings="-register-all"] Inductive json : Type :=
| JNull
| JBool (b : bool)
| JNum (n : Z)
| JStr (s : string)
| JArr (items : list json)
| JObj (fields : list (string * json)).

(** [additional_kwargs["function_call"]] of an AI message. *)
Record FunctionCall : Type := mkFunctionCall {
  fc_name : string;
  fc_arguments : string
}.

(** [langchain_core.messages]: the four message kinds the agent handles. *)
Inductive BaseMessage : Type :=
| SystemMessage (content : string)
| HumanMessage (content : string)
| AIMessage (content : string) (function_call : option FunctionCall)
| FunctionMessage (name : string) (content : string).

Definition content (m : BaseMessage) : string :=
  match m with
  | SystemMessage c | HumanMessage c | AIMessage c _ | FunctionMessage _ c => c
  end.

Definition function_call (m : BaseMessage) : option FunctionCall :=
  match m with
  | AIMessage _ fc => fc
  | _ => None
  end.

(** [langchain_core.agents] *)
Record AgentAction : Type := mkAgentAction {
  tool : string;
  tool_input : json;
  log : string
}.

Record AgentFinish : Type := mkAgentFinish {
  return_values : gmap string string;
  finish_log : string
}.

(** [Union[AgentAction, AgentFinish]] *)
Inductive AgentDecision : Type :=
| Action (a : AgentAction)
| Finish (f : AgentFinish).

(** [Tuple[AgentAction, str]] *)
Definition IntermediateStep : Type := AgentAction * string.

(** Python values that travel through keyword mappings and f-strings. *)
Inductive PyValue : Type :=
| VStr (s : string)
| VBool (b : bool)
| VNames (names : list string)
| VMessages (messages : list BaseMessage)
| VSteps (steps : list IntermediateStep)
| VAction (a : AgentAction).

(** [langchain_core.tools.BaseTool], as far as the agent reads it. *)
Record BaseTool : Type := mkBaseTool {
  name : string;
  description : string;
  args : json
}.

(** The function schema offered to the model for one tool. *)
Record FunctionDescription : Type := mkFunctionDescription {
  fd_name : string;
  fd_description : string;
  fd_parameters : json
}.

(** [Callbacks]: [None], or whatever object the caller passes; the agent
    hands it to the model as it is. *)
Definition Callbacks : Type := option PyValue.

(** ** Exceptions and outcomes *)

Inductive Exception : Type :=
| ValueError (msg : string)
| KeyError (key : string)
| TypeError (msg : string)
| OutputParserException (msg : string)
| ModelError (msg : string).

Inductive Outcome (A : Type) : Type :=
| Returns (a : A)
| Raises (e : Exception).
Arguments Returns {A} a.
Arguments Raises {A} e.

(** ** The language model and the log of calls made to it *)

Inductive EntryPoint : Type := PredictMessages | APredictMessages | Invoke.

Record ModelCall : Type := mkModelCall {
  entry : EntryPoint;
  call_messages : list BaseMessage;
  call_functions : option (list FunctionDescription);
  call_callbacks : Callbacks
}.

(** [BaseLanguageModel]: a black box answering a message list and an optional
    list of function schemas with one message, or failing. *)
Record BaseLanguageModel : Type := mkLLM {
  predict_messages :
    list BaseMessage → option (list FunctionDescription) → Outcome BaseMessage;
  apredict_messages :
    list BaseMessage → option (list FunctionDescription) → Outcome BaseMessage;
  invoke :
    list BaseMessage → option (list FunctionDescription) → Outcome BaseMessage
}.

(** Computations: state passing over the call log, with exceptions. *)
Definition Py (A : Type) : Type := list ModelCall → Outcome A * list ModelCall.

Definition ret {A} (a : A) : Py A := λ s, (Returns a, s).
Definition raise {A} (e : Exception) : Py A := λ s, (Raises e, s).
Definition lift {A} (o : Outcome A) : Py A := λ s, (o, s).
Definition bind {A B} (m : Py A) (k : A → Py B) : Py B :=
  λ s, match m s with
       | (Returns a, s') => k a s'
       | (Raises e, s') => (Raises e, s')
       end.

Declare Scope py_scope.
Delimit Scope py_scope with py.
Notation "'do' x '<-' m ';' k" := (bind m (λ x, k))
  (at level 10, x name, m at level 100, k at level 200,
   format "'[v' 'do'  x  '<-'  m ';' '/' k ']'") : py_scope.
Open Scope py_scope.

Definition result {A} (r : Outcome A * list ModelCall) : Outcome A := fst r.
Definition calls {A} (r : Outcome A * list ModelCall) : list ModelCall := snd r.

(** One call to the model through entry point [ep]. *)
Definition call_model (ep : EntryPoint) (llm : BaseLanguageModel)
    (messages : list BaseMessage) (functions : option (list FunctionDescription))
    (callbacks : Callbacks) : Py BaseMessage :=
  λ s,
    let answer :=
      match ep with
      | PredictMessages => predict_messages llm messages functions
      | APredictMessages => apredict_messages llm messages functions
      | Invoke => invoke llm messages functions
      end in
    (answer, s ++ [mkModelCall ep messages functions callbacks]).

(** ** The Python runtime the module relies on

    [json.loads] / [json.dumps] and [str()] of objects are outside the module;
    the development is parametric in them. *)
Class PythonRuntime : Type := {
  json_loads : string → option json;
  json_dumps : json → string;
  py_str : PyValue → string
}.

(** What [f"{v}"] interpolates: a [str] is inserted as it is. *)
Definition fstr `{PythonRuntime} (v : PyValue) : string :=
  match v with
  | VStr s => s
  | _ => py_str v
  end.

(** ** Collaborators of the module *)

(** [PromptValue]: what [format_prompt] returns. *)
Record PromptValue : Type := mkPromptValue {
  to_messages : list BaseMessage
}.

(** [BasePromptTemplate]: the declared variables and the renderer. *)
Record BasePromptTemplate : Type := mkPrompt {
  input_variables : list string;
  format_prompt : gmap string PyValue → Outcome PromptValue
}.

(** Slots of a chat template.  A human template is kept in parsed form, so
    [from_template("{input}")] is [[Var "input"]]. *)
Inductive TemplatePiece : Type := Lit (s : string) | Var (k : string).

Inductive MessageLike : Type :=
| Static (m : BaseMessage)
| HumanMessagePromptTemplate (template : list TemplatePiece)
| MessagesPlaceholder (variable_name : string).

Record ChatPromptTemplate : Type := mkChatPrompt {
  messages : list MessageLike
}.

Definition piece_variables (p : TemplatePiece) : list string :=
  match p with Lit _ => [] | Var k => [k] end.

Definition slot_variables (m : MessageLike) : list string :=
  match m with
  | Static _ => []
  | HumanMessagePromptTemplate t => t ≫= piece_variables
  | MessagesPlaceholder k => [k]
  end.

Section Agent.
Context `{PythonRuntime}.

(** Modelled from the spec: [format_tool_to_openai_function] of
    [langchain/tools/render.py] is not among the sources; the spec has each
    offered schema carry the tool's name, description and parameter shape. *)
Definition format_tool_to_openai_function (t : BaseTool) : FunctionDescription :=
  {| fd_name := name t; fd_description := description t; fd_parameters := args t |}.

(** Modelled from the spec: the history formatter
    [format_to_openai_function_messages] of
    [langchain/agents/format_scratchpad/openai_functions.py] is not among the
    sources.  Per the spec each step contributes an ai message carrying the
    recorded function-call request (tool name and serialized arguments) and
    then a function-result message carrying the observation, tagged with the
    tool's name; steps are taken in order. *)
Definition _convert_agent_action_to_messages
    (agent_action : AgentAction) (observation : string) : list BaseMessage :=
  [ AIMessage ""
      (Some {| fc_name := tool agent_action;
               fc_arguments := json_dumps (tool_input agent_action) |});
    FunctionMessage (tool agent_action) observation ].

Definition format_to_openai_function_messages
    (intermediate_steps : list IntermediateStep) : list BaseMessage :=
  fold_left
    (λ messages step,
       messages ++ _convert_agent_action_to_messages (fst step) (snd step))
    intermediate_steps [].

(** Modelled from the spec: [OpenAIFunctionsAgentOutputParser._parse_ai_message]
    of [langchain/agents/output_parsers/openai_functions.py] is not among the
    sources.  Per the spec: a message with an embedded function-call request
    gives an [AgentAction] naming that tool with the decoded arguments, a
    payload that does not decode surfaces a decoding error, and any other
    message gives an [AgentFinish] wrapping its text under ["output"]. *)
Definition _parse_ai_message (message : BaseMessage) : Outcome AgentDecision :=
  match function_call message with
  | Some fc =>
      match json_loads (fc_arguments fc) with
      | Some _tool_input =>
          Returns (Action {| tool := fc_name fc;
                             tool_input := _tool_input;
                             log := content message |})
      | None =>
          Raises (OutputParserException
                    ("Could not parse tool input: the `arguments` of "
                     +:+ fc_name fc +:+ " is not valid JSON."))
      end
  | None =>
      Returns (Finish {| return_values := {[ "output" := content message ]};
                         finish_log := content message |})
  end.

(** Modelled from the spec: [ChatPromptTemplate] of
    [langchain_core/prompts/chat.py] is not among the sources.  Per the spec a
    template is an ordered sequence of message slots, fixed ones, human
    templates over variables and placeholders for message lists; rendering
    needs every declared variable and yields the messages in slot order. *)
Definition format_piece (kwargs : gmap string PyValue) (p : TemplatePiece)
    : Outcome string :=
  match p with
  | Lit s => Returns s
  | Var k =>
      match kwargs !! k with
      | Some v => Returns (fstr v)
      | None => Raises (KeyError k)
      end
  end.

Fixpoint format_template (kwargs : gmap string PyValue)
    (t : list TemplatePiece) : Outcome string :=
  match t with
  | [] => Returns ""
  | p :: rest =>
      match format_piece kwargs p with
      | Raises e => Raises e
      | Returns s =>
          match format_template kwargs rest with
          | Raises e => Raises e
          | Returns s' => Returns (s +:+ s')
          end
      end
  end.

Definition format_slot (kwargs : gmap string PyValue) (m : MessageLike)
    : Outcome (list BaseMessage) :=
  match m with
  | Static msg => Returns [msg]
  | HumanMessagePromptTemplate t =>
      match format_template kwargs t with
      | Raises e => Raises e
      | Returns s => Returns [HumanMessage s]
      end
  | MessagesPlaceholder k =>
      match kwargs !! k with
      | Some (VMessages ms) => Returns ms
      | Some _ =>
          Raises (ValueError
                    ("variable " +:+ k +:+ " should be a list of base messages"))
      | None => Raises (KeyError k)
      end
  end.

Fixpoint format_messages (kwargs : gmap string PyValue)
    (slots : list MessageLike) : Outcome (list BaseMessage) :=
  match slots with
  | [] => Returns []
  | m :: rest =>
      match format_slot kwargs m with
      | Raises e => Raises e
      | Returns ms =>
          match format_messages kwargs rest with
          | Raises e => Raises e
          | Returns ms' => Returns (ms ++ ms')
          end
      end
  end.

Definition chat_input_variables (p : ChatPromptTemplate) : list string :=
  merge_sort String.le (remove_dups (messages p ≫= slot_variables)).

Definition chat_prompt (p : ChatPromptTemplate) : BasePromptTemplate :=
  {| input_variables := chat_input_variables p;
     format_prompt := λ kwargs,
       match format_messages kwargs (messages p) with
       | Raises e => Raises e
       | Returns ms => Returns (mkPromptValue ms)
       end |}.

(** ** [class OpenAIFunctionsAgent] *)

Record OpenAIFunctionsAgent : Type := mkAgent {
  llm : BaseLanguageModel;
  tools : list BaseTool;
  prompt : BasePromptTemplate
}.

Definition get_allowed_tools (self : OpenAIFunctionsAgent) : list string :=
  map name (tools self).

(** The root validator, run by the constructor on the field values. *)
Definition validate_prompt (values : OpenAIFunctionsAgent)
    : Outcome OpenAIFunctionsAgent :=
  if decide ("agent_scratchpad" ∉ input_variables (prompt values)) then
    Raises (ValueError
              ("`agent_scratchpad` should be one of the variables in the prompt, got "
               +:+ fstr (VNames (input_variables (prompt values)))))
  else Returns values.

(** [OpenAIFunctionsAgent(llm=..., tools=..., prompt=...)] *)
Definition new_OpenAIFunctionsAgent (llm : BaseLanguageModel)
    (tools : list BaseTool) (prompt : BasePromptTemplate)
    : Outcome OpenAIFunctionsAgent :=
  validate_prompt (mkAgent llm tools prompt).

Definition input_keys (self : OpenAIFunctionsAgent) : list string := ["input"].

Definition functions (self : OpenAIFunctionsAgent) : list FunctionDescription :=
  map format_tool_to_openai_function (tools self).

(** [{k: kwargs[k] for k in variables if keep(k)}]: entries are added in the
    order of [variables]; the first kept name missing from [kwargs] raises
    [KeyError]. *)
Fixpoint dict_comprehension (keep : string → bool)
    (acc : gmap string PyValue) (variables : list string)
    (kwargs : gmap string PyValue) : Outcome (gmap string PyValue) :=
  match variables with
  | [] => Returns acc
  | k :: rest =>
      if keep k then
        match kwargs !! k with
        | Some v => dict_comprehension keep (<[k := v]> acc) rest kwargs
        | None => Raises (KeyError k)
        end
      else dict_comprehension keep acc rest kwargs
  end.

Definition not_scratchpad (k : string) : bool :=
  bool_decide (k ≠ "agent_scratchpad").

(** Lines 88 to 92 of [plan], the same in [aplan]. *)
Definition full_inputs (self : OpenAIFunctionsAgent)
    (intermediate_steps : list IntermediateStep)
    (kwargs : gmap string PyValue) : Outcome (gmap string PyValue) :=
  let agent_scratchpad := format_to_openai_function_messages intermediate_steps in
  match dict_comprehension not_scratchpad ∅
          (input_variables (prompt self)) kwargs with
  | Raises e => Raises e
  | Returns selected_inputs =>
      Returns (<["agent_scratchpad" := VMessages agent_scratchpad]> selected_inputs)
  end.

(** Lines 88 to 94: the messages sent to the model. *)
Definition rendered_messages (self : OpenAIFunctionsAgent)
    (intermediate_steps : list IntermediateStep)
    (kwargs : gmap string PyValue) : Outcome (list BaseMessage) :=
  match full_inputs self intermediate_steps kwargs with
  | Raises e => Raises e
  | Returns inputs =>
      match format_prompt (prompt self) inputs with
      | Raises e => Raises e
      | Returns prompt_value => Returns (to_messages prompt_value)
      end
  end.

Definition plan (self : OpenAIFunctionsAgent)
    (intermediate_steps : list IntermediateStep) (callbacks : Callbacks)
    (with_functions : bool) (kwargs : gmap string PyValue) : Py AgentDecision :=
  do messages <- lift (rendered_messages self intermediate_steps kwargs);
  do predicted_message <-
    (if with_functions then
       call_model PredictMessages (llm self) messages
         (Some (functions self)) callbacks
     else
       call_model PredictMessages (llm self) messages None callbacks);
  lift (_parse_ai_message predicted_message).

Definition aplan (self : OpenAIFunctionsAgent)
    (intermediate_steps : list IntermediateStep) (callbacks : Callbacks)
    (kwargs : gmap string PyValue) : Py AgentDecision :=
  do messages <- lift (rendered_messages self intermediate_steps kwargs);
  do predicted_message <-
    call_model APredictMessages (llm self) messages
      (Some (functions self)) callbacks;
  lift (_parse_ai_message predicted_message).

(** Truth value of an object, as [if with_functions:] takes it. *)
Definition truthy (v : PyValue) : bool :=
  match v with
  | VStr s => negb (bool_decide (s = ""))
  | VBool b => b
  | VNames names => negb (bool_decide (names = []))
  | VMessages messages => match messages with [] => false | _ => true end
  | VSteps steps => match steps with [] => false | _ => true end
  | VAction _ => true
  end.

(** The parameter that a keyword of [kw] names although the call already
    fills it by position: [self] or [intermediate_steps]. *)
Definition given_twice (kw : gmap string PyValue) : option string :=
  if decide (is_Some (kw !! "self")) then Some "self"
  else if decide (is_Some (kw !! "intermediate_steps"))
       then Some "intermediate_steps"
       else None.

Definition multiple_values (method parameter : string) : Exception :=
  TypeError ("OpenAIFunctionsAgent." +:+ method
             +:+ "() got multiple values for argument '" +:+ parameter +:+ "'").

(** [self.plan(intermediate_steps, **kw)], the signature being
    [plan(self, intermediate_steps, callbacks=None, with_functions=True,
    **kwargs)]: the entries [callbacks] and [with_functions] of [kw] are
    bound to the parameters and the others form [kwargs]. *)
Definition plan_by_keywords (self : OpenAIFunctionsAgent)
    (intermediate_steps : list IntermediateStep)
    (kw : gmap string PyValue) : Py AgentDecision :=
  match given_twice kw with
  | Some parameter => raise (multiple_values "plan" parameter)
  | None =>
      let callbacks := kw !! "callbacks" in
      let with_functions :=
        match kw !! "with_functions" with
        | Some v => truthy v
        | None => true
        end in
      plan self intermediate_steps callbacks with_functions
        (delete "with_functions" (delete "callbacks" kw))
  end.

(** [self.aplan(intermediate_steps, **kw)], the signature being
    [aplan(self, intermediate_steps, callbacks=None, **kwargs)]. *)
Definition aplan_by_keywords (self : OpenAIFunctionsAgent)
    (intermediate_steps : list IntermediateStep)
    (kw : gmap string PyValue) : Py AgentDecision :=
  match given_twice kw with
  | Some parameter => raise (multiple_values "aplan" parameter)
  | None =>
      aplan self intermediate_steps (kw !! "callbacks") (delete "callbacks" kw)
  end.

(** [self.plan(intermediate_steps, with_functions=False, **kwargs)] inside
    [return_stopped_response]: an entry [with_functions] of [kwargs] repeats
    the keyword written in the call, and an entry [callbacks] is bound to
    that parameter of [plan].  [kwargs] holds neither [self] nor
    [intermediate_steps], which [return_stopped_response] binds itself. *)
Definition plan_without_functions (self : OpenAIFunctionsAgent)
    (intermediate_steps : list IntermediateStep)
    (kwargs : gmap string PyValue) : Py AgentDecision :=
  if decide (is_Some (kwargs !! "with_functions")) then
    raise (TypeError
             "OpenAIFunctionsAgent.plan() got multiple values for keyword argument 'with_functions'")
  else
    plan self intermediate_steps (kwargs !! "callbacks") false
      (delete "callbacks" kwargs).

Definition return_stopped_response (self : OpenAIFunctionsAgent)
    (early_stopping_method : string)
    (intermediate_steps : list IntermediateStep)
    (kwargs : gmap string PyValue) : Py AgentFinish :=
  if decide (early_stopping_method = "force") then
    ret (mkAgentFinish
           {[ "output" := "Agent stopped due to iteration limit or time limit." ]}
           "")
  else if decide (early_stopping_method = "generate") then
    do agent_decision <- plan_without_functions self intermediate_steps kwargs;
    match agent_decision with
    | Finish f => ret f
    | Action a =>
        raise (ValueError
                 ("got AgentAction with no functions provided: "
                  +:+ fstr (VAction a)))
    end
  else
    raise (ValueError
             ("early_stopping_method should be one of `force` or `generate`, got "
              +:+ fstr (VStr early_stopping_method))).

Definition default_system_message : BaseMessage :=
  SystemMessage "You are a helpful AI assistant.".

Definition create_prompt (system_message : option BaseMessage)
    (extra_prompt_messages : option (list MessageLike)) : ChatPromptTemplate :=
  let _prompts := default [] extra_prompt_messages in
  let messages :=
    match system_message with
    | Some m => [Static m]
    | None => []
    end in
  mkChatPrompt
    (messages ++
     (_prompts ++ [ HumanMessagePromptTemplate [Var "input"];
                    MessagesPlaceholder "agent_scratchpad" ])).

Definition from_llm_and_tools (llm : BaseLanguageModel) (tools : list BaseTool)
    (extra_prompt_messages : option (list MessageLike))
    (system_message : option BaseMessage) : Outcome OpenAIFunctionsAgent :=
  let prompt := create_prompt system_message extra_prompt_messages in
  new_OpenAIFunctionsAgent llm tools (chat_prompt prompt).

(** ** Module-level functions *)

Definition create_default_prompt (system_message : string)
    (include_chat_history : bool) : ChatPromptTemplate :=
  let messages := [Static (SystemMessage system_message)] in
  let messages :=
    if include_chat_history
    then messages ++ [MessagesPlaceholder "chat_history"]
    else messages in
  mkChatPrompt
    (messages ++ [ HumanMessagePromptTemplate [Var "input"];
                   MessagesPlaceholder "agent_scratchpad" ]).

(** Runnables of the expression language, as far as the pipeline uses them. *)
Definition Runnable (A B : Type) : Type := A → Py B.

Definition pipe {A B C} (f : Runnable A B) (g : Runnable B C) : Runnable A C :=
  λ x, do y <- f x; g y.

(** Modelled from the spec: [RunnablePassthrough.assign], the prompt as a
    runnable, [llm.bind] and the parser as a runnable belong to
    [langchain_core], which is not among the sources.  Per the spec the
    pipeline merges the computed variable into the input mapping, renders the
    prompt from the variables it declares (failing when one is missing),
    invokes the model with the bound tool schemas and parses the reply.
    The spec leaves open which exception reports a missing variable; the
    theorems about the pipeline do not rest on its text. *)
Definition RunnablePassthrough_assign (key : string)
    (f : gmap string PyValue → Outcome PyValue)
    : Runnable (gmap string PyValue) (gmap string PyValue) :=
  λ x, do v <- lift (f x); ret (<[key := v]> x).

Definition prompt_runnable (p : BasePromptTemplate)
    : Runnable (gmap string PyValue) PromptValue :=
  λ x, do inputs <- lift (dict_comprehension (λ _, true) ∅ (input_variables p) x);
       lift (format_prompt p inputs).

Definition llm_bind (llm : BaseLanguageModel) (functions : list FunctionDescription)
    : Runnable PromptValue BaseMessage :=
  λ prompt_value,
    call_model Invoke llm (to_messages prompt_value) (Some functions) None.

Definition OpenAIFunctionsAgentOutputParser : Runnable BaseMessage AgentDecision :=
  λ message, lift (_parse_ai_message message).

(** [lambda x: format_to_openai_function_messages(x["intermediate_steps"])];
    a value that is not a list of steps is outside the declared input type
    and is rejected. *)
Definition scratchpad_of_input (x : gmap string PyValue) : Outcome PyValue :=
  match x !! "intermediate_steps" with
  | None => Raises (KeyError "intermediate_steps")
  | Some (VSteps steps) =>
      Returns (VMessages (format_to_openai_function_messages steps))
  | Some _ => Raises (TypeError "intermediate_steps is not a list of steps")
  end.

Definition create_openai_functions_agent (llm : BaseLanguageModel)
    (tools : list BaseTool) (prompt : BasePromptTemplate)
    : Outcome (Runnable (gmap string PyValue) AgentDecision) :=
  if decide ("agent_scratchpad" ∉ input_variables prompt) then
    Raises (ValueError
              ("Prompt must have input variable `agent_scratchpad`, but wasn't found. Found "
               +:+ fstr (VNames (input_variables prompt)) +:+ " instead."))
  else
    let llm_with_tools :=
      llm_bind llm (map format_tool_to_openai_function tools) in
    let agent :=
      pipe (RunnablePassthrough_assign "agent_scratchpad" scratchpad_of_input)
        (pipe (prompt_runnable prompt)
           (pipe llm_with_tools OpenAIFunctionsAgentOutputParser)) in
    Returns agent.

End Agent.

(** ** A small runtime, to run the model on concrete inputs

    A decoder and an encoder for JSON with integer numbers and the escapes
    of the quote and the backslash, laid out as Python's [json.dumps] does
    ([", "] and [": "]).  [str()] and [repr()] display objects as Python
    does when their strings hold no quote and no backslash. *)
Module MiniRuntime.

Definition dquote : ascii := "034"%char.
Definition backslash : ascii := "092"%char.

Definition quoted (s : string) : string :=
  String dquote (s +:+ String dquote "").

Definition is_space (c : ascii) : bool :=
  bool_decide (c = " "%char) || bool_decide (c = "010"%char)
  || bool_decide (c = "009"%char) || bool_decide (c = "013"%char).

Definition digit_of (c : ascii) : option Z :=
  let n := Z.of_nat (nat_of_ascii c) in
  if bool_decide (48 ≤ n ≤ 57)%Z then Some (n - 48)%Z else None.

Fixpoint skip_space (cs : list ascii) : list ascii :=
  match cs with
  | c :: rest => if is_space c then skip_space rest else cs
  | [] => []
  end.

(** The characters after an opening quote, up to the closing one. *)
Fixpoint parse_chars (cs : list ascii) : option (string * list ascii) :=
  match cs with
  | [] => None
  | c :: rest =>
      if bool_decide (c = dquote) then Some ("", rest)
      else if bool_decide (c = backslash) then
        match rest with
        | e :: rest' =>
            if bool_decide (e = dquote) || bool_decide (e = backslash) then
              match parse_chars rest' with
              | Some (s, r) => Some (String e s, r)
              | None => None
              end
            else None
        | [] => None
        end
      else
        match parse_chars rest with
        | Some (s, r) => Some (String c s, r)
        | None => None
        end
  end.

Fixpoint parse_digits (acc : Z) (cs : list ascii) : Z * list ascii :=
  match cs with
  | c :: rest =>
      match digit_of c with
      | Some d => parse_digits (10 * acc + d)%Z rest
      | None => (acc, cs)
      end
  | [] => (acc, [])
  end.

Definition parse_number (cs : list ascii) : option (Z * list ascii) :=
  match cs with
  | c :: rest =>
      match digit_of c with
      | Some _ => Some (parse_digits 0 cs)
      | None => None
      end
  | [] => None
  end.

Definition Parser (A : Type) : Type := list ascii → option (A * list ascii).

(** [v, v, ... ]] after the opening bracket and its first non-space. *)
Fixpoint parse_items (fuel : nat) (value : Parser json) : Parser (list json) :=
  λ cs,
    match fuel with
    | O => None
    | S fuel' =>
        match value cs with
        | None => None
        | Some (v, rest) =>
            match skip_space rest with
            | "," :: rest' =>
                match parse_items fuel' value rest' with
                | Some (vs, r) => Some (v :: vs, r)
                | None => None
                end
            | "]" :: rest' => Some ([v], rest')
            | _ => None
            end
        end
    end%char.

Fixpoint parse_fields (fuel : nat) (value : Parser json)
    : Parser (list (string * json)) :=
  λ cs,
    match fuel with
    | O => None
    | S fuel' =>
        match skip_space cs with
        | q :: rest =>
            if bool_decide (q = dquote) then
              match parse_chars rest with
              | None => None
              | Some (k, rest1) =>
                  match skip_space rest1 with
                  | ":" :: rest2 =>
                      match value rest2 with
                      | None => None
                      | Some (v, rest3) =>
                          match skip_space rest3 with
                          | "," :: rest4 =>
                              match parse_fields fuel' value rest4 with
                              | Some (kvs, r) => Some ((k, v) :: kvs, r)
                              | None => None
                              end
                          | "}" :: rest4 => Some ([(k, v)], rest4)
                          | _ => None
                          end
                      end
                  | _ => None
                  end
              end
            else None
        | [] => None
        end
    end%char.

Fixpoint parse_value (fuel : nat) : Parser json :=
  λ cs,
    match fuel with
    | O => None
    | S fuel' =>
        match skip_space cs with
        | "n" :: "u" :: "l" :: "l" :: rest => Some (JNull, rest)
        | "t" :: "r" :: "u" :: "e" :: rest => Some (JBool true, rest)
        | "f" :: "a" :: "l" :: "s" :: "e" :: rest => Some (JBool false, rest)
        | "[" :: rest =>
            match skip_space rest with
            | "]" :: rest' => Some (JArr [], rest')
            | rest' =>
                match parse_items (length cs) (parse_value fuel') rest' with
                | Some (vs, r) => Some (JArr vs, r)
                | None => None
                end
            end
        | "{" :: rest =>
            match skip_space rest with
            | "}" :: rest' => Some (JObj [], rest')
            | rest' =>
                match parse_fields (length cs) (parse_value fuel') rest' with
                | Some (kvs, r) => Some (JObj kvs, r)
                | None => None
                end
            end
        | "-" :: rest =>
            match parse_number rest with
            | Some (n, r) => Some (JNum (- n), r)
            | None => None
            end
        | c :: rest =>
            if bool_decide (c = dquote) then
              match parse_chars rest with
              | Some (s, r) => Some (JStr s, r)
              | None => None
              end
            else
              match parse_number (c :: rest) with
              | Some (n, r) => Some (JNum n, r)
              | None => None
              end
        | [] => None
        end
    end%char.

Definition loads (s : string) : option json :=
  let cs := list_ascii_of_string s in
  match parse_value (S (length cs)) cs with
  | Some (v, rest) =>
      match skip_space rest with
      | [] => Some v
      | _ => None
      end
  | None => None
  end.

Fixpoint escape (s : string) : string :=
  match s with
  | EmptyString => ""
  | String c rest =>
      if bool_decide (c = dquote) || bool_decide (c = backslash)
      then String backslash (String c (escape rest))
      else String c (escape rest)
  end.

Fixpoint dumps (j : json) : string :=
  match j with
  | JNull => "null"
  | JBool true => "true"
  | JBool false => "false"
  | JNum n => pretty n
  | JStr s => quoted (escape s)
  | JArr items =>
      let fix go (xs : list json) : string :=
        match xs with
        | [] => ""
        | x :: rest =>
            dumps x +:+ match rest with [] => "" | _ => ", " +:+ go rest end
        end in
      "[" +:+ go items +:+ "]"
  | JObj fields =>
      let fix go (kvs : list (string * json)) : string :=
        match kvs with
        | [] => ""
        | (k, v) :: rest =>
            quoted (escape k) +:+ ": " +:+ dumps v
            +:+ match rest with [] => "" | _ => ", " +:+ go rest end
        end in
      "{" +:+ go fields +:+ "}"
  end.

Fixpoint join (sep : string) (xs : list string) : string :=
  match xs with
  | [] => ""
  | x :: rest => x +:+ match rest with [] => "" | _ => sep +:+ join sep rest end
  end.

Definition repr_str (s : string) : string := "'" +:+ s +:+ "'".

Definition repr_list {A} (item : A → string) (xs : list A) : string :=
  "[" +:+ join ", " (map item xs) +:+ "]".

(** [repr()] of decoded JSON, a Python object. *)
Fixpoint repr_json (j : json) : string :=
  match j with
  | JNull => "None"
  | JBool true => "True"
  | JBool false => "False"
  | JNum n => pretty n
  | JStr s => repr_str s
  | JArr items =>
      let fix go (xs : list json) : string :=
        match xs with
        | [] => ""
        | x :: rest =>
            repr_json x +:+ match rest with [] => "" | _ => ", " +:+ go rest end
        end in
      "[" +:+ go items +:+ "]"
  | JObj fields =>
      let fix go (kvs : list (string * json)) : string :=
        match kvs with
        | [] => ""
        | (k, v) :: rest =>
            repr_str k +:+ ": " +:+ repr_json v
            +:+ match rest with [] => "" | _ => ", " +:+ go rest end
        end in
      "{" +:+ go fields +:+ "}"
  end.

Definition repr_message (m : BaseMessage) : string :=
  match m with
  | SystemMessage c => "SystemMessage(content=" +:+ repr_str c +:+ ")"
  | HumanMessage c => "HumanMessage(content=" +:+ repr_str c +:+ ")"
  | AIMessage c None => "AIMessage(content=" +:+ repr_str c +:+ ")"
  | AIMessage c (Some fc) =>
      "AIMessage(content=" +:+ repr_str c
      +:+ ", additional_kwargs={'function_call': {'name': "
      +:+ repr_str (fc_name fc) +:+ ", 'arguments': "
      +:+ repr_str (fc_arguments fc) +:+ "}})"
  | FunctionMessage n c =>
      "FunctionMessage(content=" +:+ repr_str c +:+ ", name=" +:+ repr_str n
      +:+ ")"
  end.

Definition str_action (sep : string) (a : AgentAction) : string :=
  "tool=" +:+ repr_str (tool a) +:+ sep +:+ "tool_input="
  +:+ repr_json (tool_input a) +:+ sep +:+ "log=" +:+ repr_str (log a).

Definition repr_step (step : IntermediateStep) : string :=
  "(AgentAction(" +:+ str_action ", " (fst step) +:+ "), "
  +:+ repr_str (snd step) +:+ ")".

Definition str (v : PyValue) : string :=
  match v with
  | VStr s => s
  | VBool true => "True"
  | VBool false => "False"
  | VNames names => repr_list repr_str names
  | VMessages ms => repr_list repr_message ms
  | VSteps steps => repr_list repr_step steps
  | VAction a => str_action " " a
  end.

#[export] Instance runtime : PythonRuntime :=
  {| json_loads := loads; json_dumps := dumps; py_str := str |}.

End MiniRuntime.

(** ** Vocabulary of the statements *)

(** The first kept variable that [kwargs] does not supply, if any. *)
Fixpoint first_missing (keep : string → bool) (variables : list string)
    (kwargs : gmap string PyValue) : option string :=
  match variables with
  | [] => None
  | k :: rest =>
      if keep k then
        match kwargs !! k with
        | Some _ => first_missing keep rest kwargs
        | None => Some k
        end
      else first_missing keep rest kwargs
  end.

(** [word] occurs in [msg]. *)
Definition mentions (word msg : string) : Prop :=
  ∃ before after, msg = before +:+ word +:+ after.

(** The parsing policy in the spec's words, as a relation between the
    model's reply and the outcome of a planning call. *)
Definition follows_parsing_policy `{PythonRuntime}
    (reply : BaseMessage) (r : Outcome AgentDecision) : Prop :=
  match function_call reply with
  | Some request =>
      match json_loads (fc_arguments request) with
      | Some arguments =>
          ∃ a, r = Returns (Action a)
               ∧ tool a = fc_name request ∧ tool_input a = arguments
      | None => ∃ msg, r = Raises (OutputParserException msg)
      end
  | None =>
      ∃ f, r = Returns (Finish f)
           ∧ return_values f = {[ "output" := content reply ]}
  end.

(** The two messages the spec asks of the history formatter for one step. *)
Definition ai_message_of `{PythonRuntime} (a : AgentAction) : BaseMessage :=
  AIMessage "" (Some (mkFunctionCall (tool a) (json_dumps (tool_input a)))).

Definition function_message_of (a : AgentAction) (observation : string)
    : BaseMessage :=
  FunctionMessage (tool a) observation.

(** ** A scenario: one tool, a model that gives a fixed answer *)
Module Scenario.
Import MiniRuntime.

Definition search : BaseTool :=
  mkBaseTool "search" "Look something up."
    (JObj [("q", JObj [("type", JStr "string")])]).

(** A model that answers every request with [reply]. *)
Definition answering (reply : BaseMessage) : BaseLanguageModel :=
  mkLLM (λ _ _, Returns reply) (λ _ _, Returns reply) (λ _ _, Returns reply).

Definition weather_query : string :=
  "{" +:+ quoted "q" +:+ ": " +:+ quoted "weather today" +:+ "}".

Definition asks_search : BaseMessage :=
  AIMessage "" (Some (mkFunctionCall "search" weather_query)).

Definition broken_request : BaseMessage :=
  AIMessage "" (Some (mkFunctionCall "search" "{q: weather")).

Definition sunny : BaseMessage := AIMessage "It is sunny." None.

Definition default_prompt : BasePromptTemplate :=
  chat_prompt (create_prompt (Some default_system_message) None).

Definition agent (reply : BaseMessage) : OpenAIFunctionsAgent :=
  mkAgent (answering reply) [search] default_prompt.

Definition user_input : gmap string PyValue :=
  {[ "input" := VStr "weather today" ]}.

Definition searched : AgentAction :=
  mkAgentAction "search" (JObj [("q", JStr "weather today")]) "".

Definition one_step : list IntermediateStep := [(searched, "Sunny, 21 degrees.")].

Definition first_messages : list BaseMessage :=
  [ SystemMessage "You are a helpful AI assistant.";
    HumanMessage "weather today" ].

Definition prompt_without_scratchpad : BasePromptTemplate :=
  chat_prompt
    (mkChatPrompt [ Static default_system_message;
                    HumanMessagePromptTemplate [Var "input"] ]).

(** A template that shows the steps to the model itself. *)
Definition prompt_over_steps : BasePromptTemplate :=
  chat_prompt
    (mkChatPrompt
       [ HumanMessagePromptTemplate
           [Var "input"; Lit " Steps so far: "; Var "intermediate_steps"];
         MessagesPlaceholder "agent_scratchpad" ]).

Definition pipeline_input : gmap string PyValue :=
  <[ "intermediate_steps" := VSteps [] ]> user_input.

(** A model whose every entry point fails with [e]. *)
Definition failing (e : Exception) : BaseLanguageModel :=
  mkLLM (λ _ _, Raises e) (λ _ _, Raises e) (λ _ _, Raises e).

Definition history_prompt : BasePromptTemplate :=
  chat_prompt (create_default_prompt "You are a helpful AI assistant." true).

Definition earlier_talk : list BaseMessage :=
  [HumanMessage "hi"; AIMessage "hello" None].

Definition pipeline_input_with_history : gmap string PyValue :=
  <[ "chat_history" := VMessages earlier_talk ]>
    (<[ "intermediate_steps" := VSteps one_step ]> user_input).

Definition noisy_pipeline_input : gmap string PyValue :=
  <[ "agent_scratchpad" := VStr "mine" ]>
    (<[ "verbose" := VStr "yes" ]> pipeline_input).

(** A template that shows one more variable to the model. *)
Definition prompt_over (variable : string) : BasePromptTemplate :=
  chat_prompt
    (mkChatPrompt
       [ HumanMessagePromptTemplate [Var "input"; Lit " "; Var variable];
         MessagesPlaceholder "agent_scratchpad" ]).

Definition sunny_finish : AgentFinish :=
  mkAgentFinish {[ "output" := "It is sunny." ]} "It is sunny.".

Definition traced_input : gmap string PyValue :=
  <[ "callbacks" := VNames ["tracer"] ]> user_input.

Definition flagged_input : gmap string PyValue :=
  <[ "with_functions" := VBool true ]> user_input.

(** The outcome of the pipeline over [prompt] and of [plan] called with the
    steps and the remaining entries of the same input as keywords. *)
Definition pipeline_outcome (prompt : BasePromptTemplate)
    (x : gmap string PyValue) : Outcome AgentDecision :=
  match create_openai_functions_agent (answering sunny) [search] prompt with
  | Returns pipeline => result (pipeline x [])
  | Raises e => Raises e
  end.

Definition plan_outcome (prompt : BasePromptTemplate)
    (steps : list IntermediateStep) (x : gmap string PyValue)
    : Outcome AgentDecision :=
  result (plan_by_keywords (mkAgent (answering sunny) [search] prompt) steps
            (delete "intermediate_steps" x) []).

End Scenario.

(** ** Properties *)

Section Properties.
Context `{PythonRuntime}.

(** *** The monad *)

Lemma bind_lift_raises {A B} (o : Outcome A) (k : A → Py B) e s :
  o = Raises e → bind (lift o) k s = (Raises e, s).
Proof. intros ->. reflexivity. Qed.

Lemma bind_lift_returns {A B} (o : Outcome A) (k : A → Py B) a s :
  o = Returns a → bind (lift o) k s = k a s.
Proof. intros ->. reflexivity. Qed.

(** *** The history formatter *)

Lemma format_steps_from (steps : list IntermediateStep) (acc : list BaseMessage) :
  fold_left
    (λ messages step,
       messages ++ _convert_agent_action_to_messages (fst step) (snd step))
    steps acc
  = acc ++ format_to_openai_function_messages steps.
Proof.
  unfold format_to_openai_function_messages.
  revert acc. induction steps as [|step steps IH]; intros acc; simpl.
  - by rewrite app_nil_r.
  - rewrite (IH (acc ++ _)), (IH (_convert_agent_action_to_messages _ _)).
    by rewrite <- app_assoc.
Qed.

Lemma format_steps_cons (a : AgentAction) (obs : string)
    (steps : list IntermediateStep) :
  format_to_openai_function_messages ((a, obs) :: steps)
  = ai_message_of a :: function_message_of a obs
      :: format_to_openai_function_messages steps.
Proof.
  unfold format_to_openai_function_messages at 1. simpl.
  by rewrite format_steps_from.
Qed.

Lemma format_steps_length (steps : list IntermediateStep) :
  length (format_to_openai_function_messages steps) = 2 * length steps.
Proof.
  induction steps as [|[a obs] steps IH]; [done|].
  rewrite format_steps_cons. simpl. lia.
Qed.

Lemma format_steps_lookup (steps : list IntermediateStep) i a obs :
  steps !! i = Some (a, obs) →
  format_to_openai_function_messages steps !! (2 * i) = Some (ai_message_of a)
  ∧ format_to_openai_function_messages steps !! (2 * i + 1)
    = Some (function_message_of a obs).
Proof.
  revert i. induction steps as [|[a' obs'] steps IH]; intros i Hi; [done|].
  rewrite format_steps_cons. destruct i as [|i]; simpl in Hi.
  - by simplify_eq.
  - replace (2 * S i) with (S (S (2 * i))) by lia.
    replace (S (S (2 * i)) + 1) with (S (S (2 * i + 1))) by lia.
    simpl. by apply IH.
Qed.

(** *** The dictionary comprehension *)

Lemma dict_comprehension_raises keep acc variables kwargs k :
  first_missing keep variables kwargs = Some k →
  dict_comprehension keep acc variables kwargs = Raises (KeyError k).
Proof.
  revert acc. induction variables as [|k' rest IH]; intros acc; simpl; [done|].
  destruct (keep k'); [|by apply IH].
  destruct (kwargs !! k'); [by apply IH|]. by intros [= ->].
Qed.

Lemma dict_comprehension_returns keep acc variables kwargs :
  first_missing keep variables kwargs = None →
  ∃ m, dict_comprehension keep acc variables kwargs = Returns m
       ∧ ∀ k, m !! k = if bool_decide (k ∈ variables) && keep k
                       then kwargs !! k else acc !! k.
Proof.
  revert acc. induction variables as [|k' rest IH]; intros acc; simpl.
  - intros _. by exists acc.
  - destruct (keep k') eqn:Hkeep.
    + destruct (kwargs !! k') as [v|] eqn:Hv; [|done].
      intros Hrest. destruct (IH (<[k' := v]> acc) Hrest) as (m & -> & Hm).
      exists m. split; [done|]. intros k. rewrite Hm.
      destruct (decide (k = k')) as [->|Hne].
      * rewrite Hkeep, Hv, lookup_insert_eq.
        rewrite (bool_decide_eq_true_2 (k' ∈ k' :: rest)) by left.
        by destruct (bool_decide (k' ∈ rest)).
      * rewrite lookup_insert_ne by done.
        by rewrite (bool_decide_ext (k ∈ k' :: rest) (k ∈ rest)) by set_solver.
    + intros Hrest. destruct (IH acc Hrest) as (m & -> & Hm).
      exists m. split; [done|]. intros k. rewrite Hm.
      destruct (decide (k = k')) as [->|Hne].
      * rewrite Hkeep. by rewrite !andb_false_r.
      * by rewrite (bool_decide_ext (k ∈ k' :: rest) (k ∈ rest)) by set_solver.
Qed.

Lemma first_missing_some keep variables kwargs k :
  first_missing keep variables kwargs = Some k →
  k ∈ variables ∧ keep k = true ∧ kwargs !! k = None.
Proof.
  induction variables as [|k' rest IH]; simpl; [done|].
  destruct (keep k') eqn:Hkeep.
  - destruct (kwargs !! k') eqn:Hv.
    + intros Hk. destruct (IH Hk) as (? & ? & ?). set_solver.
    + intros [= <-]. set_solver.
  - intros Hk. destruct (IH Hk) as (? & ? & ?). set_solver.
Qed.

Lemma first_missing_none keep variables kwargs :
  first_missing keep variables kwargs = None ↔
  ∀ k, k ∈ variables → keep k = true → is_Some (kwargs !! k).
Proof.
  induction variables as [|k' rest IH]; simpl.
  - split; [|done]. intros _ k Hk. by apply elem_of_nil in Hk.
  - destruct (keep k') eqn:Hkeep.
    + destruct (kwargs !! k') eqn:Hv.
      * rewrite IH. split.
        -- intros Hall k [->|Hk]%elem_of_cons Hkk; [by rewrite Hv|by apply Hall].
        -- intros Hall k Hk. apply Hall. by right.
      * split; [done|]. intros Hall.
        destruct (Hall k') as [v Hv']; [by left|done|congruence].
    + rewrite IH. split.
      * intros Hall k [->|Hk]%elem_of_cons Hkk; [congruence|by apply Hall].
      * intros Hall k Hk. apply Hall. by right.
Qed.

(** Two comprehensions that keep and find the same declared variables. *)
Lemma first_missing_ext keep1 keep2 variables kw1 kw2 :
  (∀ k, k ∈ variables →
        (keep1 k = true ∧ kw1 !! k = None) ↔ (keep2 k = true ∧ kw2 !! k = None)) →
  first_missing keep1 variables kw1 = first_missing keep2 variables kw2.
Proof.
  induction variables as [|k' rest IH]; intros Hagree; simpl; [done|].
  assert (first_missing keep1 rest kw1 = first_missing keep2 rest kw2) as Hrest.
  { apply IH. intros k Hk. apply Hagree. by right. }
  specialize (Hagree k' (ltac:(by left))).
  destruct (keep1 k') eqn:H1, (keep2 k') eqn:H2,
    (kw1 !! k') eqn:Hv1, (kw2 !! k') eqn:Hv2; try done; naive_solver.
Qed.

(** *** Prompt assembly *)

Lemma not_scratchpad_true k : not_scratchpad k = true ↔ k ≠ "agent_scratchpad".
Proof. unfold not_scratchpad. by rewrite bool_decide_eq_true. Qed.

Lemma full_inputs_raises self steps kwargs k :
  first_missing not_scratchpad (input_variables (prompt self)) kwargs = Some k →
  full_inputs self steps kwargs = Raises (KeyError k).
Proof.
  intros Hk. unfold full_inputs.
  by rewrite (dict_comprehension_raises _ _ _ _ _ Hk).
Qed.

Lemma full_inputs_returns self steps kwargs :
  first_missing not_scratchpad (input_variables (prompt self)) kwargs = None →
  ∃ inputs,
    full_inputs self steps kwargs = Returns inputs
    ∧ ∀ k, inputs !! k =
           if decide (k = "agent_scratchpad")
           then Some (VMessages (format_to_openai_function_messages steps))
           else if bool_decide (k ∈ input_variables (prompt self))
                then kwargs !! k else None.
Proof.
  intros Hnone. unfold full_inputs.
  destruct (dict_comprehension_returns not_scratchpad ∅ _ _ Hnone)
    as (m & -> & Hm).
  eexists. split; [done|]. intros k. destruct (decide _) as [->|Hne].
  - by rewrite lookup_insert_eq.
  - rewrite lookup_insert_ne by done. rewrite Hm, lookup_empty.
    unfold not_scratchpad. rewrite (bool_decide_eq_true_2 _ Hne).
    by rewrite andb_true_r.
Qed.

Lemma full_inputs_scratchpad self steps kwargs inputs :
  full_inputs self steps kwargs = Returns inputs →
  inputs !! "agent_scratchpad"
  = Some (VMessages (format_to_openai_function_messages steps)).
Proof.
  unfold full_inputs. destruct (dict_comprehension _ _ _ _); [|done].
  intros [= <-]. by rewrite lookup_insert_eq.
Qed.

(** *** Running [plan] and [aplan] *)

Lemma plan_raises_before_call self steps callbacks with_functions kwargs s e :
  rendered_messages self steps kwargs = Raises e →
  plan self steps callbacks with_functions kwargs s = (Raises e, s).
Proof. intros Hr. unfold plan. by rewrite (bind_lift_raises _ _ _ _ Hr). Qed.

Lemma aplan_raises_before_call self steps callbacks kwargs s e :
  rendered_messages self steps kwargs = Raises e →
  aplan self steps callbacks kwargs s = (Raises e, s).
Proof. intros Hr. unfold aplan. by rewrite (bind_lift_raises _ _ _ _ Hr). Qed.

Lemma plan_calls_once self steps callbacks with_functions kwargs s messages :
  rendered_messages self steps kwargs = Returns messages →
  plan self steps callbacks with_functions kwargs s
  = ( match predict_messages (llm self) messages
              (if with_functions then Some (functions self) else None) with
      | Returns reply => _parse_ai_message reply
      | Raises e => Raises e
      end,
      s ++ [mkModelCall PredictMessages messages
              (if with_functions then Some (functions self) else None)
              callbacks] ).
Proof.
  intros Hr. unfold plan. rewrite (bind_lift_returns _ _ _ _ Hr).
  unfold bind, lift, call_model.
  destruct with_functions; by destruct (predict_messages _ _ _).
Qed.

Lemma aplan_calls_once self steps callbacks kwargs s messages :
  rendered_messages self steps kwargs = Returns messages →
  aplan self steps callbacks kwargs s
  = ( match apredict_messages (llm self) messages (Some (functions self)) with
      | Returns reply => _parse_ai_message reply
      | Raises e => Raises e
      end,
      s ++ [mkModelCall APredictMessages messages (Some (functions self))
              callbacks] ).
Proof.
  intros Hr. unfold aplan. rewrite (bind_lift_returns _ _ _ _ Hr).
  unfold bind, lift, call_model. by destruct (apredict_messages _ _ _).
Qed.

Lemma parse_follows_policy reply :
  follows_parsing_policy reply (_parse_ai_message reply).
Proof.
  unfold follows_parsing_policy, _parse_ai_message.
  destruct (function_call reply) as [request|]; [|by eexists].
  destruct (json_loads _); by eexists.
Qed.

(** ** The claims *)

(** C1. Whenever a planning call ([plan], with or without the tool schemas,
    or [aplan]) reaches the model and the model answers with a message, the
    outcome of the call follows the parsing policy on that message: a
    function-call request whose arguments decode gives the [AgentAction] for
    the requested name with the decoded arguments, one whose arguments do not
    decode raises the decoding error, and a message without a request gives
    the [AgentFinish] whose mapping is the message text under ["output"]. *)
Theorem plan_follows_parsing_policy self steps callbacks kwargs s messages :
  rendered_messages self steps kwargs = Returns messages →
  (∀ (with_functions : bool) reply,
     predict_messages (llm self) messages
       (if with_functions then Some (functions self) else None) = Returns reply →
     follows_parsing_policy reply
       (result (plan self steps callbacks with_functions kwargs s)))
  ∧ (∀ reply,
       apredict_messages (llm self) messages (Some (functions self))
       = Returns reply →
       follows_parsing_policy reply
         (result (aplan self steps callbacks kwargs s))).
Proof.
  intros Hr. split.
  - intros wf reply Hreply. rewrite (plan_calls_once _ _ _ _ _ _ _ Hr).
    unfold result. simpl. rewrite Hreply. apply parse_follows_policy.
  - intros reply Hreply. rewrite (aplan_calls_once _ _ _ _ _ _ Hr).
    unfold result. simpl. rewrite Hreply. apply parse_follows_policy.
Qed.

(** C2. For a list of [n] steps the history formatter gives [2 * n]
    messages; step [i] contributes, at positions [2 * i] and [2 * i + 1], the
    ai message carrying its function-call request and the function-result
    message carrying its observation under the tool's name; no steps give no
    messages; and this list is what [plan] and [aplan] pass to the prompt as
    ["agent_scratchpad"]. *)
Theorem format_steps_two_messages_per_step (steps : list IntermediateStep) :
  length (format_to_openai_function_messages steps) = 2 * length steps
  ∧ (steps = [] → format_to_openai_function_messages steps = [])
  ∧ (∀ i a obs,
       steps !! i = Some (a, obs) →
       format_to_openai_function_messages steps !! (2 * i)
       = Some (AIMessage ""
                 (Some (mkFunctionCall (tool a) (json_dumps (tool_input a)))))
       ∧ format_to_openai_function_messages steps !! (2 * i + 1)
         = Some (FunctionMessage (tool a) obs))
  ∧ (∀ self kwargs inputs,
       full_inputs self steps kwargs = Returns inputs →
       inputs !! "agent_scratchpad"
       = Some (VMessages (format_to_openai_function_messages steps))).
Proof.
  split; [apply format_steps_length|]. split; [by intros ->|]. split.
  - intros i a obs Hi. by apply format_steps_lookup.
  - intros self kwargs inputs. apply full_inputs_scratchpad.
Qed.

(** C3. A prompt whose declared variables lack ["agent_scratchpad"] is
    rejected with a [ValueError] both by the constructor of the agent and by
    [create_openai_functions_agent]; neither ever returns an agent for it. *)
Theorem construction_rejects_prompt_without_scratchpad
    (llm : BaseLanguageModel) (tools : list BaseTool)
    (prompt : BasePromptTemplate) :
  "agent_scratchpad" ∉ input_variables prompt →
  (∃ msg, new_OpenAIFunctionsAgent llm tools prompt = Raises (ValueError msg))
  ∧ (∃ msg,
       create_openai_functions_agent llm tools prompt = Raises (ValueError msg))
  ∧ (∀ agent, new_OpenAIFunctionsAgent llm tools prompt ≠ Returns agent)
  ∧ (∀ agent, create_openai_functions_agent llm tools prompt ≠ Returns agent).
Proof.
  intros Hno.
  unfold new_OpenAIFunctionsAgent, validate_prompt, create_openai_functions_agent.
  simpl. destruct (decide _) as [_|Hin]; [|done].
  repeat split; try by eexists. all: by intros agent.
Qed.

(** C4. With selector ["force"], [return_stopped_response] returns the
    [AgentFinish] with the fixed text under ["output"] and leaves the log of
    model calls as it was, whatever the steps and the variables. *)
Theorem force_returns_fixed_message self steps kwargs s :
  return_stopped_response self "force" steps kwargs s
  = ( Returns
        (mkAgentFinish
           {[ "output" := "Agent stopped due to iteration limit or time limit." ]}
           ""),
      s ).
Proof. reflexivity. Qed.

(** C6. With a selector other than ["force"] and ["generate"],
    [return_stopped_response] raises a [ValueError] whose message names both
    valid values, and leaves the log of model calls as it was. *)
Theorem unknown_selector_is_rejected self selector steps kwargs s :
  selector ≠ "force" → selector ≠ "generate" →
  ∃ msg,
    return_stopped_response self selector steps kwargs s
    = (Raises (ValueError msg), s)
    ∧ mentions "force" msg ∧ mentions "generate" msg.
Proof.
  intros Hforce Hgenerate. unfold return_stopped_response.
  rewrite (decide_False (P := selector = "force")) by done.
  rewrite (decide_False (P := selector = "generate")) by done.
  eexists. split; [reflexivity|]. simpl. split.
  - by exists "early_stopping_method should be one of `",
              ("` or `generate`, got " +:+ selector).
  - by exists "early_stopping_method should be one of `force` or `",
              ("`, got " +:+ selector).
Qed.

(** The call [plan(steps, with_functions=False, **kwargs)] of the stopping
    path, once Python has bound its keywords. *)
Lemma plan_without_functions_bound self steps kwargs s :
  kwargs !! "with_functions" = None →
  plan_without_functions self steps kwargs s
  = plan self steps (kwargs !! "callbacks") false (delete "callbacks" kwargs) s.
Proof.
  intros Hnone. unfold plan_without_functions.
  rewrite decide_False; [done|]. rewrite Hnone. by intros [? ?].
Qed.

Lemma plan_without_functions_clash self steps kwargs s :
  is_Some (kwargs !! "with_functions") →
  ∃ msg, plan_without_functions self steps kwargs s = (Raises (TypeError msg), s).
Proof.
  intros Hsome. unfold plan_without_functions. rewrite decide_True by done.
  by eexists.
Qed.

Lemma generate_follows_planning self steps kwargs s :
  return_stopped_response self "generate" steps kwargs s
  = match plan_without_functions self steps kwargs s with
    | (Returns (Finish f), s') => (Returns f, s')
    | (Returns (Action a), s') =>
        (Raises (ValueError ("got AgentAction with no functions provided: "
                             +:+ fstr (VAction a))), s')
    | (Raises e, s') => (Raises e, s')
    end.
Proof.
  unfold return_stopped_response. simpl. unfold bind.
  destruct (plan_without_functions _ _ _ _) as [[[a|f]|e] s']; reflexivity.
Qed.

(** C5, as amended.  With selector ["generate"] and variables that hold no
    entry ["with_functions"], [return_stopped_response] makes one planning
    call without the tool schemas, an entry ["callbacks"] being bound as the
    callbacks of that call and the other entries being its variables: its
    model calls are those of that call, none when the prompt cannot be
    rendered and otherwise exactly one, carrying no schemas; an
    [AgentFinish] from that call is returned as it is, and an [AgentAction]
    makes the operation raise a [ValueError] instead of returning it. *)
Theorem generate_plans_once_without_tools self steps
    (kwargs : gmap string PyValue) s :
  kwargs !! "with_functions" = None →
  let stopped := return_stopped_response self "generate" steps kwargs s in
  let planned :=
    plan self steps (kwargs !! "callbacks") false (delete "callbacks" kwargs) s in
  calls stopped = calls planned
  ∧ (∀ e, rendered_messages self steps (delete "callbacks" kwargs) = Raises e →
          calls stopped = s)
  ∧ (∀ messages,
       rendered_messages self steps (delete "callbacks" kwargs)
       = Returns messages →
       calls stopped
       = s ++ [mkModelCall PredictMessages messages None
                 (kwargs !! "callbacks")])
  ∧ (∀ f, result planned = Returns (Finish f) → result stopped = Returns f)
  ∧ (∀ a, result planned = Returns (Action a) →
          ∃ msg, result stopped = Raises (ValueError msg)
                 ∧ mentions "got AgentAction with no functions provided" msg).
Proof.
  intros Hfree stopped planned.
  assert (stopped =
          match planned with
          | (Returns (Finish f), s') => (Returns f, s')
          | (Returns (Action a), s') =>
              (Raises (ValueError ("got AgentAction with no functions provided: "
                                   +:+ fstr (VAction a))), s')
          | (Raises e, s') => (Raises e, s')
          end) as Hstopped.
  { subst stopped planned. rewrite generate_follows_planning.
    by rewrite (plan_without_functions_bound _ _ _ _ Hfree). }
  assert (calls stopped = calls planned) as Hcalls.
  { rewrite Hstopped. by destruct planned as [[[a|f]|e] s']. }
  split; [done|]. split; [|split; [|split]].
  - intros e Hr. rewrite Hcalls. subst planned.
    by rewrite (plan_raises_before_call _ _ _ _ _ _ _ Hr).
  - intros messages Hr. rewrite Hcalls. subst planned.
    by rewrite (plan_calls_once _ _ _ _ _ _ _ Hr).
  - intros f Hf. rewrite Hstopped. destruct planned as [r s']. simpl in Hf.
    by subst r.
  - intros a Ha. rewrite Hstopped. destruct planned as [r s']. simpl in Ha.
    subst r. eexists. split; [reflexivity|].
    by exists "", (": " +:+ fstr (VAction a)).
Qed.

(** [plan] with the tools offered and [aplan], on the same bound arguments:
    they fail alike before any model call when the prompt cannot be
    rendered, and otherwise send the same messages with the same schema
    list, one through [predict_messages] and the other through
    [apredict_messages]; with the same response they have the same outcome. *)
Lemma plan_and_aplan_agree_after_binding self steps callbacks kwargs s :
  (∀ messages,
     rendered_messages self steps kwargs = Returns messages →
     predict_messages (llm self) messages (Some (functions self))
     = apredict_messages (llm self) messages (Some (functions self))) →
  result (plan self steps callbacks true kwargs s)
  = result (aplan self steps callbacks kwargs s)
  ∧ match rendered_messages self steps kwargs with
    | Raises e =>
        calls (plan self steps callbacks true kwargs s) = s
        ∧ calls (aplan self steps callbacks kwargs s) = s
    | Returns messages =>
        calls (plan self steps callbacks true kwargs s)
        = s ++ [mkModelCall PredictMessages messages
                  (Some (functions self)) callbacks]
        ∧ calls (aplan self steps callbacks kwargs s)
          = s ++ [mkModelCall APredictMessages messages
                    (Some (functions self)) callbacks]
    end.
Proof.
  intros Hsame. destruct (rendered_messages self steps kwargs)
    as [messages|e] eqn:Hr.
  - rewrite !(plan_calls_once _ _ _ _ _ _ _ Hr).
    rewrite (aplan_calls_once _ _ _ _ _ _ Hr).
    unfold result, calls. simpl. by rewrite (Hsame messages eq_refl).
  - rewrite (plan_raises_before_call _ _ _ _ _ _ _ Hr).
    by rewrite (aplan_raises_before_call _ _ _ _ _ _ Hr).
Qed.

(** C9. When the variables supplied to a planning call lack a variable the
    prompt declares other than ["agent_scratchpad"], [plan] and [aplan] raise
    [KeyError] for the first such variable and make no model call; when all
    of them are supplied, the inputs of the prompt are assembled and hold
    every declared variable. *)
Theorem planning_needs_declared_variables self steps callbacks with_functions
    kwargs s :
  (∀ k, k ∈ input_variables (prompt self) → k ≠ "agent_scratchpad" →
        kwargs !! k = None →
        ∃ missing,
          missing ∈ input_variables (prompt self)
          ∧ missing ≠ "agent_scratchpad" ∧ kwargs !! missing = None
          ∧ plan self steps callbacks with_functions kwargs s
            = (Raises (KeyError missing), s)
          ∧ aplan self steps callbacks kwargs s = (Raises (KeyError missing), s))
  ∧ ((∀ k, k ∈ input_variables (prompt self) → k ≠ "agent_scratchpad" →
           is_Some (kwargs !! k)) →
     ∃ inputs,
       full_inputs self steps kwargs = Returns inputs
       ∧ (∀ k, k ∈ input_variables (prompt self) → is_Some (inputs !! k))
       ∧ (∀ k, k ∈ input_variables (prompt self) → k ≠ "agent_scratchpad" →
               inputs !! k = kwargs !! k)).
Proof.
  split.
  - intros k Hk Hne Hnone.
    destruct (first_missing not_scratchpad (input_variables (prompt self)) kwargs)
      as [missing|] eqn:Hfirst.
    + destruct (first_missing_some _ _ _ _ Hfirst) as (Hin & Hkeep & Hmiss).
      apply not_scratchpad_true in Hkeep.
      assert (rendered_messages self steps kwargs = Raises (KeyError missing))
        as Hr.
      { unfold rendered_messages.
        by rewrite (full_inputs_raises _ _ _ _ Hfirst). }
      exists missing. repeat split; try done.
      * by apply plan_raises_before_call.
      * by apply aplan_raises_before_call.
    + rewrite first_missing_none in Hfirst.
      destruct (Hfirst k Hk) as [v Hv]; [by apply not_scratchpad_true|].
      congruence.
  - intros Hall.
    destruct (full_inputs_returns self steps kwargs) as (inputs & Hin & Hlook).
    { apply first_missing_none. intros k Hk Hkeep.
      apply Hall; [done|]. by apply not_scratchpad_true. }
    exists inputs. split; [done|]. split.
    + intros k Hk. rewrite Hlook. destruct (decide _) as [->|Hne]; [by eexists|].
      rewrite (bool_decide_eq_true_2 _ Hk). by apply Hall.
    + intros k Hk Hne. rewrite Hlook.
      rewrite (decide_False (P := k = "agent_scratchpad")) by done.
      by rewrite (bool_decide_eq_true_2 _ Hk).
Qed.

Lemma full_inputs_ext self steps kw1 kw2 :
  (∀ k, k ∈ input_variables (prompt self) → k ≠ "agent_scratchpad" →
        kw1 !! k = kw2 !! k) →
  full_inputs self steps kw1 = full_inputs self steps kw2.
Proof.
  intros Hagree.
  assert (first_missing not_scratchpad (input_variables (prompt self)) kw1
          = first_missing not_scratchpad (input_variables (prompt self)) kw2)
    as Hfirst.
  { apply first_missing_ext. intros k Hk.
    split; intros [Hkeep Hnone]; (split; [done|]);
      apply not_scratchpad_true in Hkeep;
      [rewrite <- Hagree by done|rewrite Hagree by done]; done. }
  destruct (first_missing not_scratchpad (input_variables (prompt self)) kw1)
    as [k|] eqn:H1; symmetry in Hfirst.
  - by rewrite (full_inputs_raises _ _ _ _ H1),
               (full_inputs_raises _ _ _ _ Hfirst).
  - destruct (full_inputs_returns self steps kw1 H1) as (m1 & -> & Hm1).
    destruct (full_inputs_returns self steps kw2 Hfirst) as (m2 & -> & Hm2).
    f_equal. apply map_eq. intros k. rewrite Hm1, Hm2.
    destruct (decide _) as [|Hne]; [done|].
    destruct (bool_decide (k ∈ input_variables (prompt self))) eqn:Hk; [|done].
    apply bool_decide_eq_true in Hk. by apply Hagree.
Qed.

(** C10. Two planning calls on the same steps whose variables agree on the
    variables the prompt declares other than ["agent_scratchpad"] render the
    same messages and run alike, whatever else the two mappings hold; the
    inputs of the prompt hold the formatted steps under ["agent_scratchpad"]
    and nothing under a name the prompt does not declare. *)
Theorem undeclared_inputs_do_not_interfere self steps callbacks with_functions
    s (kw1 kw2 : gmap string PyValue) :
  (∀ k, k ∈ input_variables (prompt self) → k ≠ "agent_scratchpad" →
        kw1 !! k = kw2 !! k) →
  rendered_messages self steps kw1 = rendered_messages self steps kw2
  ∧ plan self steps callbacks with_functions kw1 s
    = plan self steps callbacks with_functions kw2 s
  ∧ aplan self steps callbacks kw1 s = aplan self steps callbacks kw2 s
  ∧ (∀ inputs,
       full_inputs self steps kw1 = Returns inputs →
       inputs !! "agent_scratchpad"
       = Some (VMessages (format_to_openai_function_messages steps))
       ∧ ∀ k, k ∉ input_variables (prompt self) → k ≠ "agent_scratchpad" →
              inputs !! k = None).
Proof.
  intros Hagree.
  assert (rendered_messages self steps kw1 = rendered_messages self steps kw2)
    as Hr.
  { unfold rendered_messages. by rewrite (full_inputs_ext _ _ _ _ Hagree). }
  split; [done|]. split; [|split].
  - unfold plan. by rewrite Hr.
  - unfold aplan. by rewrite Hr.
  - intros inputs Hin. split; [by eapply full_inputs_scratchpad|].
    intros k Hk Hne.
    destruct (first_missing not_scratchpad (input_variables (prompt self)) kw1)
      as [k'|] eqn:Hfirst.
    + rewrite (full_inputs_raises _ _ _ _ Hfirst) in Hin. done.
    + destruct (full_inputs_returns self steps kw1 Hfirst) as (m & Hm & Hlook).
      rewrite Hm in Hin. injection Hin as <-. rewrite Hlook.
      rewrite (decide_False (P := k = "agent_scratchpad")) by done.
      by rewrite (bool_decide_eq_false_2 _ Hk).
Qed.

(** *** Calls by keywords *)

Lemma rendered_messages_ext self steps (kw1 kw2 : gmap string PyValue) :
  (∀ k, k ∈ input_variables (prompt self) → k ≠ "agent_scratchpad" →
        kw1 !! k = kw2 !! k) →
  rendered_messages self steps kw1 = rendered_messages self steps kw2.
Proof.
  intros Hagree. unfold rendered_messages.
  by rewrite (full_inputs_ext _ _ _ _ Hagree).
Qed.

Lemma planning_ext self steps callbacks with_functions
    (kw1 kw2 : gmap string PyValue) s :
  rendered_messages self steps kw1 = rendered_messages self steps kw2 →
  plan self steps callbacks with_functions kw1 s
  = plan self steps callbacks with_functions kw2 s
  ∧ aplan self steps callbacks kw1 s = aplan self steps callbacks kw2 s.
Proof. intros Hr. unfold plan, aplan. by rewrite Hr. Qed.

Lemma given_twice_none (kw : gmap string PyValue) :
  given_twice kw = None ↔ kw !! "self" = None ∧ kw !! "intermediate_steps" = None.
Proof.
  unfold given_twice. destruct (kw !! "self") as [v|] eqn:Hself.
  - rewrite decide_True by eauto. naive_solver.
  - rewrite decide_False by (by intros [? ?]).
    destruct (kw !! "intermediate_steps") as [v|] eqn:Hsteps.
    + rewrite decide_True by eauto. naive_solver.
    + rewrite decide_False by (by intros [? ?]). naive_solver.
Qed.

(** A keyword that the prompt does not declare, or that is not given, does
    not matter to the rendering once it is taken out. *)
Lemma rendered_messages_delete self steps (kw : gmap string PyValue) k :
  k ∉ input_variables (prompt self) ∨ kw !! k = None →
  rendered_messages self steps (delete k kw) = rendered_messages self steps kw.
Proof.
  intros Hk. apply rendered_messages_ext. intros k' Hk' _.
  destruct (decide (k' = k)) as [->|Hne].
  - rewrite lookup_delete_eq. by destruct Hk as [Hk|Hk].
  - by rewrite lookup_delete_ne.
Qed.

(** C7, as amended.  Called with the same steps and the same keywords,
    [plan] and [aplan] agree, provided the prompt declares no variable
    ["with_functions"] or the keywords hold no such entry, and the tools are
    offered (an entry ["with_functions"], if given, is true): a decision is
    returned by one exactly when it is returned by the other; when no
    keyword repeats [self] or [intermediate_steps] the outcomes are equal and
    the two send the same messages, the same schema list and the same
    callbacks, one through [predict_messages] and the other through
    [apredict_messages], or both fail before any model call.  Every model
    call of [aplan] carries the schema list, whatever the keywords, while
    [plan] with a false ["with_functions"] sends none. *)
Theorem plan_and_aplan_agree_by_keywords self steps
    (kw : gmap string PyValue) s :
  ( ("with_functions" ∉ input_variables (prompt self)
     ∨ kw !! "with_functions" = None) →
    (∀ v, kw !! "with_functions" = Some v → truthy v = true) →
    (∀ messages,
       rendered_messages self steps (delete "callbacks" kw) = Returns messages →
       predict_messages (llm self) messages (Some (functions self))
       = apredict_messages (llm self) messages (Some (functions self))) →
    (∀ d, result (plan_by_keywords self steps kw s) = Returns d
          ↔ result (aplan_by_keywords self steps kw s) = Returns d)
    ∧ (given_twice kw = None →
       result (plan_by_keywords self steps kw s)
       = result (aplan_by_keywords self steps kw s))
    ∧ match given_twice kw,
            rendered_messages self steps (delete "callbacks" kw) with
      | None, Returns messages =>
          calls (plan_by_keywords self steps kw s)
          = s ++ [mkModelCall PredictMessages messages
                    (Some (functions self)) (kw !! "callbacks")]
          ∧ calls (aplan_by_keywords self steps kw s)
            = s ++ [mkModelCall APredictMessages messages
                      (Some (functions self)) (kw !! "callbacks")]
      | _, _ =>
          calls (plan_by_keywords self steps kw s) = s
          ∧ calls (aplan_by_keywords self steps kw s) = s
      end )
  ∧ (∀ c, c ∈ calls (aplan_by_keywords self steps kw s) →
          c ∈ s ∨ call_functions c = Some (functions self))
  ∧ (∀ v, kw !! "with_functions" = Some v → truthy v = false →
          ∀ c, c ∈ calls (plan_by_keywords self steps kw s) →
               c ∈ s ∨ call_functions c = None).
Proof.
  split; [|split].
  - intros Hflag Htrue Hsame. unfold plan_by_keywords, aplan_by_keywords.
    destruct (given_twice kw) as [parameter|] eqn:Htwice.
    { split; [|split]; [|done|by destruct (rendered_messages _ _ _)].
      intros d. split; intros Hd; discriminate Hd. }
    assert (match kw !! "with_functions" with
            | Some v => truthy v
            | None => true
            end = true) as ->.
    { destruct (kw !! "with_functions") as [v|] eqn:Hv; [by apply Htrue|done]. }
    assert (rendered_messages self steps
              (delete "with_functions" (delete "callbacks" kw))
            = rendered_messages self steps (delete "callbacks" kw)) as Hr.
    { apply rendered_messages_delete. destruct Hflag as [Hflag|Hflag]; [by left|].
      right. destruct (decide ("callbacks" = "with_functions")) as [Heq|Hne];
        [discriminate Heq|]. by rewrite lookup_delete_ne. }
    destruct (planning_ext self steps (kw !! "callbacks") true _ _ s Hr)
      as [-> _].
    destruct (plan_and_aplan_agree_after_binding self steps (kw !! "callbacks")
                (delete "callbacks" kw) s Hsame) as [Hresult Hcalls].
    split; [by rewrite Hresult|]. split; [done|].
    by destruct (rendered_messages self steps (delete "callbacks" kw)).
  - intros c Hc. unfold aplan_by_keywords in Hc.
    destruct (given_twice kw); [by left|].
    destruct (rendered_messages self steps (delete "callbacks" kw))
      as [messages|e] eqn:Hr.
    + rewrite (aplan_calls_once _ _ _ _ _ _ Hr) in Hc. unfold calls in Hc.
      simpl in Hc. apply elem_of_app in Hc as [Hc|Hc]; [by left|].
      apply list_elem_of_singleton in Hc as ->. by right.
    + rewrite (aplan_raises_before_call _ _ _ _ _ _ Hr) in Hc. by left.
  - intros v Hv Hfalse c Hc. unfold plan_by_keywords in Hc.
    destruct (given_twice kw); [by left|]. rewrite Hv, Hfalse in Hc.
    destruct (rendered_messages self steps
                (delete "with_functions" (delete "callbacks" kw)))
      as [messages|e] eqn:Hr.
    + rewrite (plan_calls_once _ _ _ _ _ _ _ Hr) in Hc. unfold calls in Hc.
      simpl in Hc. apply elem_of_app in Hc as [Hc|Hc]; [by left|].
      apply list_elem_of_singleton in Hc as ->. by right.
    + rewrite (plan_raises_before_call _ _ _ _ _ _ _ Hr) in Hc. by left.
Qed.

(** *** The pipeline *)

(** What the prompt of the pipeline selects from the merged mapping is what
    [plan] assembles from the remaining entries. *)
Lemma pipeline_inputs self steps (x : gmap string PyValue) :
  "agent_scratchpad" ∈ input_variables (prompt self) →
  "intermediate_steps" ∉ input_variables (prompt self) →
  dict_comprehension (λ _, true) ∅ (input_variables (prompt self))
    (<["agent_scratchpad" :=
         VMessages (format_to_openai_function_messages steps)]> x)
  = full_inputs self steps (delete "intermediate_steps" x).
Proof.
  intros Hsp Hsteps.
  set (x' := <["agent_scratchpad" := _]> x).
  set (kwargs := delete "intermediate_steps" x).
  assert (∀ k, k ∈ input_variables (prompt self) → k ≠ "agent_scratchpad" →
               x' !! k = kwargs !! k) as Hsame.
  { intros k Hk Hne. subst x' kwargs. rewrite lookup_insert_ne by done.
    rewrite lookup_delete_ne; [done|]. by intros <-. }
  assert (first_missing (λ _, true) (input_variables (prompt self)) x'
          = first_missing not_scratchpad (input_variables (prompt self)) kwargs)
    as Hfirst.
  { apply first_missing_ext. intros k Hk.
    destruct (decide (k = "agent_scratchpad")) as [->|Hne].
    - subst x'. rewrite lookup_insert_eq. split; [by intros [_ ?]|].
      intros [Hkeep _]. by apply not_scratchpad_true in Hkeep.
    - rewrite (Hsame k Hk Hne), not_scratchpad_true. naive_solver. }
  destruct (first_missing not_scratchpad _ kwargs) as [k|] eqn:Hplan.
  - by rewrite (dict_comprehension_raises _ _ _ _ _ Hfirst),
               (full_inputs_raises _ _ _ _ Hplan).
  - destruct (dict_comprehension_returns (λ _, true) ∅ _ _ Hfirst)
      as (m & -> & Hm).
    destruct (full_inputs_returns self steps kwargs Hplan) as (m' & -> & Hm').
    f_equal. apply map_eq. intros k. rewrite Hm, Hm', andb_true_r.
    destruct (decide (k = "agent_scratchpad")) as [->|Hne].
    + rewrite (bool_decide_eq_true_2 _ Hsp). subst x'.
      by rewrite lookup_insert_eq.
    + destruct (bool_decide (k ∈ input_variables (prompt self))) eqn:Hk.
      * apply bool_decide_eq_true in Hk. by apply Hsame.
      * by rewrite lookup_empty.
Qed.

(** The pipeline against [plan] on bound arguments: for a prompt that does
    not declare ["intermediate_steps"], the pipeline run on a mapping that
    holds the steps, and [plan] with the tools offered run on those steps and
    the remaining entries, send the same messages with the same schema list
    and, with the same response, have the same outcome in the model. *)
Lemma pipeline_agrees_after_binding llm tools prompt agent callbacks
    (x : gmap string PyValue) steps s :
  create_openai_functions_agent llm tools prompt = Returns agent →
  x !! "intermediate_steps" = Some (VSteps steps) →
  "intermediate_steps" ∉ input_variables prompt →
  let self := mkAgent llm tools prompt in
  let kwargs := delete "intermediate_steps" x in
  (∀ messages,
     rendered_messages self steps kwargs = Returns messages →
     invoke llm messages (Some (functions self))
     = predict_messages llm messages (Some (functions self))) →
  result (agent x s) = result (plan self steps callbacks true kwargs s)
  ∧ match rendered_messages self steps kwargs with
    | Raises e =>
        calls (agent x s) = s
        ∧ calls (plan self steps callbacks true kwargs s) = s
    | Returns messages =>
        calls (agent x s)
        = s ++ [mkModelCall Invoke messages (Some (functions self)) None]
        ∧ calls (plan self steps callbacks true kwargs s)
          = s ++ [mkModelCall PredictMessages messages
                    (Some (functions self)) callbacks]
    end.
Proof.
  intros Hcreate Hx Hsteps self kwargs Hsame.
  unfold create_openai_functions_agent in Hcreate.
  destruct (decide _) as [|Hsp]; [done|]. apply dec_stable in Hsp.
  injection Hcreate as <-.
  assert (dict_comprehension (λ _, true) ∅ (input_variables prompt)
            (<["agent_scratchpad" :=
                 VMessages (format_to_openai_function_messages steps)]> x)
          = full_inputs self steps kwargs) as Hinputs.
  { by apply (pipeline_inputs self). }
  unfold pipe, RunnablePassthrough_assign, prompt_runnable, llm_bind,
    OpenAIFunctionsAgentOutputParser, scratchpad_of_input, bind, lift, ret,
    call_model.
  rewrite Hx, Hinputs.
  destruct (rendered_messages self steps kwargs) as [messages|e] eqn:Hr.
  - rewrite (plan_calls_once _ _ _ _ _ _ _ Hr).
    specialize (Hsame messages eq_refl). simpl in Hsame.
    unfold rendered_messages in Hr.
    destruct (full_inputs self steps kwargs) as [inputs|]; [|done].
    simpl in Hr. destruct (format_prompt prompt inputs) as [pv|]; [|done].
    injection Hr as <-. unfold result, calls. simpl.
    change (map format_tool_to_openai_function tools) with (functions self).
    rewrite Hsame.
    by destruct (predict_messages llm (to_messages pv) (Some (functions self))).
  - rewrite (plan_raises_before_call _ _ _ _ _ _ _ Hr).
    unfold rendered_messages in Hr.
    destruct (full_inputs self steps kwargs) as [inputs|e']; simpl in Hr.
    + destruct (format_prompt prompt inputs) as [pv|e']; [done|].
      by injection Hr as ->.
    + by injection Hr as ->.
Qed.

(** C8, as amended.  The pipeline of [create_openai_functions_agent], run
    on a mapping that holds the steps under ["intermediate_steps"], and
    [plan], called with those steps and the remaining entries as keywords
    with the tools offered, return the same decision (one returns a decision
    exactly when the other returns it), provided that the names [plan] takes
    for itself do not get in the way: the prompt does not declare
    ["intermediate_steps"], the mapping has no entry ["self"], and the prompt
    declares neither ["callbacks"] nor ["with_functions"] when the mapping
    has such an entry.  The two then send the same messages with the same
    schema list, or both fail before any model call. *)
Theorem pipeline_agrees_with_plan llm tools prompt pipeline
    (x : gmap string PyValue) steps s :
  create_openai_functions_agent llm tools prompt = Returns pipeline →
  x !! "intermediate_steps" = Some (VSteps steps) →
  "intermediate_steps" ∉ input_variables prompt →
  x !! "self" = None →
  (∀ k, k = "callbacks" ∨ k = "with_functions" → is_Some (x !! k) →
        k ∉ input_variables prompt) →
  (∀ v, x !! "with_functions" = Some v → truthy v = true) →
  let self := mkAgent llm tools prompt in
  let kw := delete "intermediate_steps" x in
  let kwargs := delete "with_functions" (delete "callbacks" kw) in
  (∀ messages,
     rendered_messages self steps kwargs = Returns messages →
     invoke llm messages (Some (functions self))
     = predict_messages llm messages (Some (functions self))) →
  (∀ d, result (pipeline x s) = Returns d
        ↔ result (plan_by_keywords self steps kw s) = Returns d)
  ∧ match rendered_messages self steps kwargs with
    | Raises e =>
        calls (pipeline x s) = s
        ∧ calls (plan_by_keywords self steps kw s) = s
    | Returns messages =>
        calls (pipeline x s)
        = s ++ [mkModelCall Invoke messages (Some (functions self)) None]
        ∧ calls (plan_by_keywords self steps kw s)
          = s ++ [mkModelCall PredictMessages messages
                    (Some (functions self)) (kw !! "callbacks")]
    end.
Proof.
  intros Hcreate Hx Hsteps Hself Hreserved Htrue self kw kwargs Hsame.
  assert (given_twice kw = None) as Htwice.
  { apply given_twice_none. subst kw. split.
    - by rewrite lookup_delete_ne.
    - by rewrite lookup_delete_eq. }
  assert (∀ k, k = "callbacks" ∨ k = "with_functions" →
               kw !! k = x !! k) as Hkw.
  { intros k [-> | ->]; subst kw; by rewrite lookup_delete_ne. }
  assert (rendered_messages self steps kwargs = rendered_messages self steps kw)
    as Hr.
  { subst kwargs. rewrite rendered_messages_delete.
    - apply rendered_messages_delete.
      destruct (kw !! "callbacks") as [v|] eqn:Hv; [left|by right].
      apply Hreserved; [by left|]. rewrite <- Hkw by (by left). by eexists.
    - destruct (kw !! "with_functions") as [v|] eqn:Hv.
      + left. apply Hreserved; [by right|].
        rewrite <- Hkw by (by right). by eexists.
      + right. by rewrite lookup_delete_ne. }
  unfold plan_by_keywords. rewrite Htwice.
  assert (match kw !! "with_functions" with
          | Some v => truthy v
          | None => true
          end = true) as ->.
  { rewrite Hkw by (by right).
    destruct (x !! "with_functions") as [v|] eqn:Hv; [by apply Htrue|done]. }
  fold kwargs.
  destruct (planning_ext self steps (kw !! "callbacks") true kwargs kw s Hr)
    as [-> _].
  rewrite Hr in Hsame. rewrite Hr.
  destruct (pipeline_agrees_after_binding llm tools prompt pipeline
              (kw !! "callbacks") x steps s Hcreate Hx Hsteps Hsame)
    as [Hresult Hcalls].
  fold self kw in Hresult, Hcalls. split; [by rewrite Hresult|].
  by destruct (rendered_messages self steps kw).
Qed.

End Properties.

(** ** Further properties of the module *)

Section Further.
Context `{PythonRuntime}.

Lemma dict_comprehension_ext keep acc variables (kw1 kw2 : gmap string PyValue) :
  (∀ k, k ∈ variables → keep k = true → kw1 !! k = kw2 !! k) →
  dict_comprehension keep acc variables kw1
  = dict_comprehension keep acc variables kw2.
Proof.
  revert acc. induction variables as [|k rest IH]; intros acc Hagree; [done|].
  simpl. destruct (keep k) eqn:Hkeep.
  - rewrite <- (Hagree k ltac:(by left) Hkeep).
    destruct (kw1 !! k); [|done]. apply IH. intros k' Hk'. apply Hagree. by right.
  - apply IH. intros k' Hk'. apply Hagree. by right.
Qed.

Lemma string_append_empty_r (s : string) : s +:+ "" = s.
Proof.
  induction s as [|c s IH]; [done|].
  change (String c (s +:+ "") = String c s). by rewrite IH.
Qed.

(** *** Construction *)

(** X1. The constructor returns an agent exactly when the prompt declares
    ["agent_scratchpad"], and the agent then holds the model, the tools and
    the prompt it was given. *)
Theorem constructor_accepts_declared_scratchpad
    (llm : BaseLanguageModel) (tools : list BaseTool)
    (prompt : BasePromptTemplate) (agent : OpenAIFunctionsAgent) :
  new_OpenAIFunctionsAgent llm tools prompt = Returns agent
  ↔ "agent_scratchpad" ∈ input_variables prompt
    ∧ agent = mkAgent llm tools prompt.
Proof.
  unfold new_OpenAIFunctionsAgent, validate_prompt. simpl.
  destruct (decide _) as [Hno|Hyes].
  - split; [done|]. by intros [Hin _].
  - apply dec_stable in Hyes. split.
    + by intros [= <-].
    + by intros [_ ->].
Qed.

(** X2. [create_openai_functions_agent] returns a pipeline exactly when the
    prompt declares ["agent_scratchpad"]. *)
Theorem pipeline_is_built_for_declared_scratchpad
    (llm : BaseLanguageModel) (tools : list BaseTool)
    (prompt : BasePromptTemplate) :
  (∃ pipeline, create_openai_functions_agent llm tools prompt = Returns pipeline)
  ↔ "agent_scratchpad" ∈ input_variables prompt.
Proof.
  unfold create_openai_functions_agent. destruct (decide _) as [Hno|Hyes].
  - split; [by intros [? ?]|done].
  - apply dec_stable in Hyes. split; [done|]. intros _. by eexists.
Qed.

(** X13. The schemas offered to the model are one per tool, in the order of
    the tools, and their names are the allowed tools. *)
Theorem offered_functions_name_the_allowed_tools (self : OpenAIFunctionsAgent) :
  map fd_name (functions self) = get_allowed_tools self
  ∧ length (functions self) = length (tools self)
  ∧ ∀ i t, tools self !! i = Some t →
           functions self !! i
           = Some (mkFunctionDescription (name t) (description t) (args t)).
Proof.
  unfold functions, get_allowed_tools. split; [|split].
  - rewrite map_map. reflexivity.
  - apply length_map.
  - intros i t Ht. change (map ?f ?l) with (f <$> l).
    by rewrite list_lookup_fmap, Ht.
Qed.

(** *** Planning *)

(** X3. Once the prompt is rendered, [plan] and [aplan] call the model
    exactly once, whatever the model answers; an exception of the model is
    raised unchanged, with no second attempt. *)
Theorem planning_calls_the_model_exactly_once self steps callbacks
    (with_functions : bool) kwargs s messages :
  rendered_messages self steps kwargs = Returns messages →
  let offered := if with_functions then Some (functions self) else None in
  calls (plan self steps callbacks with_functions kwargs s)
  = s ++ [mkModelCall PredictMessages messages offered callbacks]
  ∧ calls (aplan self steps callbacks kwargs s)
    = s ++ [mkModelCall APredictMessages messages (Some (functions self))
              callbacks]
  ∧ (∀ e, predict_messages (llm self) messages offered = Raises e →
          result (plan self steps callbacks with_functions kwargs s) = Raises e)
  ∧ (∀ e, apredict_messages (llm self) messages (Some (functions self))
          = Raises e →
          result (aplan self steps callbacks kwargs s) = Raises e).
Proof.
  intros Hr offered.
  rewrite (plan_calls_once _ _ _ _ _ _ _ Hr), (aplan_calls_once _ _ _ _ _ _ Hr).
  unfold result, calls. simpl. repeat split.
  - intros e He. subst offered. by rewrite He.
  - intros e He. by rewrite He.
Qed.

(** X6. The [KeyError] of a planning call names the first missing variable
    in the order of declaration: when every variable declared before [k]
    (other than ["agent_scratchpad"]) is supplied and [k] is not, the call
    raises [KeyError k], whatever is missing after [k]. *)
Theorem key_error_names_first_missing_variable self steps callbacks
    with_functions kwargs s (before after : list string) k :
  input_variables (prompt self) = before ++ k :: after →
  k ≠ "agent_scratchpad" →
  kwargs !! k = None →
  (∀ k', k' ∈ before → k' ≠ "agent_scratchpad" → is_Some (kwargs !! k')) →
  plan self steps callbacks with_functions kwargs s = (Raises (KeyError k), s)
  ∧ aplan self steps callbacks kwargs s = (Raises (KeyError k), s).
Proof.
  intros Hvars Hne Hnone Hbefore.
  assert (first_missing not_scratchpad (input_variables (prompt self)) kwargs
          = Some k) as Hfirst.
  { rewrite Hvars. clear Hvars.
    induction before as [|k' before IH]; simpl.
    - apply not_scratchpad_true in Hne. by rewrite Hne, Hnone.
    - assert (first_missing not_scratchpad (before ++ k :: after) kwargs
              = Some k) as Hrest.
      { apply IH. intros k'' Hk''. apply Hbefore. by right. }
      destruct (not_scratchpad k') eqn:Hkeep; [|done].
      destruct (Hbefore k') as [v ->]; [by left|by apply not_scratchpad_true|].
      done. }
  assert (rendered_messages self steps kwargs = Raises (KeyError k)) as Hr.
  { unfold rendered_messages. by rewrite (full_inputs_raises _ _ _ _ Hfirst). }
  split.
  - by apply plan_raises_before_call.
  - by apply aplan_raises_before_call.
Qed.

(** *** Stopping *)

(** X4. Whatever the selector and the variables, [return_stopped_response]
    never offers the tools to the model: it makes no model call, or, for
    ["generate"] with a prompt that renders, the single call without
    schemas, with the ["callbacks"] entry of the variables as callbacks. *)
Theorem stopped_response_never_offers_tools self selector steps
    (kwargs : gmap string PyValue) s :
  calls (return_stopped_response self selector steps kwargs s) = s
  ∨ ∃ messages,
      selector = "generate"
      ∧ kwargs !! "with_functions" = None
      ∧ rendered_messages self steps (delete "callbacks" kwargs)
        = Returns messages
      ∧ calls (return_stopped_response self selector steps kwargs s)
        = s ++ [mkModelCall PredictMessages messages None
                  (kwargs !! "callbacks")].
Proof.
  destruct (decide (selector = "generate")) as [->|Hother].
  - rewrite generate_follows_planning.
    destruct (kwargs !! "with_functions") as [v|] eqn:Hflag.
    { left. destruct (plan_without_functions_clash self steps kwargs s)
        as [msg ->]; [by eexists|done]. }
    rewrite (plan_without_functions_bound _ _ _ _ Hflag).
    destruct (rendered_messages self steps (delete "callbacks" kwargs))
      as [messages|e] eqn:Hr.
    + right. exists messages. split; [done|]. split; [done|]. split; [done|].
      rewrite (plan_calls_once _ _ _ _ _ _ _ Hr).
      destruct (predict_messages _ _ _) as [reply|]; [|done].
      by destruct (_parse_ai_message reply) as [[a|f]|].
    + left. by rewrite (plan_raises_before_call _ _ _ _ _ _ _ Hr).
  - left. unfold return_stopped_response.
    destruct (decide (selector = "force")); [done|].
    by rewrite decide_False.
Qed.

(** X5. With ["generate"], an entry ["with_functions"] among the variables
    makes [return_stopped_response] raise [TypeError] before any planning or
    model call.  Without such an entry it returns a finish exactly when the
    planning call without tools does, and an exception of that call (a
    missing variable, a failure of the model, arguments that do not decode)
    is raised unchanged. *)
Theorem generate_returns_what_planning_finishes self steps
    (kwargs : gmap string PyValue) s :
  let stopped := return_stopped_response self "generate" steps kwargs s in
  (is_Some (kwargs !! "with_functions") →
   ∃ msg, stopped = (Raises (TypeError msg), s))
  ∧ (kwargs !! "with_functions" = None →
     let planned :=
       plan self steps (kwargs !! "callbacks") false
         (delete "callbacks" kwargs) s in
     (∀ f, result stopped = Returns f ↔ result planned = Returns (Finish f))
     ∧ (∀ e, result planned = Raises e → result stopped = Raises e)).
Proof.
  intros stopped. subst stopped. rewrite generate_follows_planning. split.
  - intros Hflag.
    destruct (plan_without_functions_clash self steps kwargs s Hflag)
      as [msg ->]. by eexists.
  - intros Hflag planned. subst planned.
    rewrite (plan_without_functions_bound _ _ _ _ Hflag). unfold result.
    destruct (plan _ _ _ _ _ _) as [[[a|f']|e'] s']; simpl; split.
    + intros f. split; intros Hf; discriminate Hf.
    + intros e He. discriminate He.
    + intros f. split; intros Hf; by simplify_eq.
    + intros e He. discriminate He.
    + intros f. split; intros Hf; discriminate Hf.
    + by intros e [= ->].
Qed.

(** *** The pipeline *)

(** X10. The pipeline needs the steps in its input: without an entry
    ["intermediate_steps"] it raises [KeyError] and calls no model. *)
Theorem pipeline_needs_intermediate_steps llm tools prompt pipeline
    (x : gmap string PyValue) s :
  create_openai_functions_agent llm tools prompt = Returns pipeline →
  x !! "intermediate_steps" = None →
  pipeline x s = (Raises (KeyError "intermediate_steps"), s).
Proof.
  intros Hcreate Hx. unfold create_openai_functions_agent in Hcreate.
  destruct (decide _); [done|]. injection Hcreate as <-.
  unfold pipe, RunnablePassthrough_assign, scratchpad_of_input, bind, lift.
  by rewrite Hx.
Qed.

(** X11. The pipeline reads only the steps and the variables the prompt
    declares: two inputs with the same ["intermediate_steps"] entry that
    supply every declared variable other than ["agent_scratchpad"] and agree
    on them run alike, so an ["agent_scratchpad"] given by the caller is
    replaced and undeclared entries are ignored. *)
Theorem pipeline_ignores_undeclared_inputs llm tools prompt pipeline
    (x1 x2 : gmap string PyValue) s :
  create_openai_functions_agent llm tools prompt = Returns pipeline →
  x1 !! "intermediate_steps" = x2 !! "intermediate_steps" →
  (∀ k, k ∈ input_variables prompt → k ≠ "agent_scratchpad" →
        is_Some (x1 !! k)) →
  (∀ k, k ∈ input_variables prompt → k ≠ "agent_scratchpad" →
        x1 !! k = x2 !! k) →
  pipeline x1 s = pipeline x2 s.
Proof.
  intros Hcreate Hsteps _ Hagree. unfold create_openai_functions_agent in Hcreate.
  destruct (decide _); [done|]. injection Hcreate as <-.
  unfold pipe, RunnablePassthrough_assign, prompt_runnable, scratchpad_of_input,
    bind, lift, ret.
  rewrite <- Hsteps. destruct (x1 !! "intermediate_steps") as [[]|]; try done.
  simpl.
  set (v := VMessages (format_to_openai_function_messages steps)).
  rewrite (dict_comprehension_ext _ _ _
             (<["agent_scratchpad" := v]> x1) (<["agent_scratchpad" := v]> x2));
    [done|].
  intros k Hk _. destruct (decide (k = "agent_scratchpad")) as [->|Hne].
  - by rewrite !lookup_insert_eq.
  - rewrite !lookup_insert_ne by done. by apply Hagree.
Qed.

(** X12. The pipeline calls the model at most once, through [invoke], and
    the call carries the schemas of all the tools it was built with. *)
Theorem pipeline_calls_the_model_with_all_tools llm tools prompt pipeline
    (x : gmap string PyValue) s :
  create_openai_functions_agent llm tools prompt = Returns pipeline →
  calls (pipeline x s) = s
  ∨ ∃ messages,
      calls (pipeline x s)
      = s ++ [mkModelCall Invoke messages
                (Some (map format_tool_to_openai_function tools)) None]
      ∧ length (map format_tool_to_openai_function tools) = length tools.
Proof.
  intros Hcreate. unfold create_openai_functions_agent in Hcreate.
  destruct (decide _); [done|]. injection Hcreate as <-.
  unfold pipe, RunnablePassthrough_assign, prompt_runnable, llm_bind,
    OpenAIFunctionsAgentOutputParser, bind, lift, ret, call_model.
  destruct (scratchpad_of_input x) as [v|]; [|by left].
  destruct (dict_comprehension _ _ _ _) as [inputs|]; [|by left].
  destruct (format_prompt prompt inputs) as [pv|]; [|by left].
  right. exists (to_messages pv). split; [|apply length_map].
  by destruct (invoke llm (to_messages pv) _).
Qed.

(** *** The prompt factories *)

Lemma elem_of_chat_input_variables (p : ChatPromptTemplate) (k : string) :
  k ∈ chat_input_variables p
  ↔ ∃ slot, k ∈ slot_variables slot ∧ slot ∈ messages p.
Proof.
  unfold chat_input_variables.
  rewrite merge_sort_Permutation, elem_of_remove_dups.
  apply list_elem_of_bind.
Qed.

Lemma create_prompt_declares_input_and_scratchpad sm extra :
  "agent_scratchpad" ∈ chat_input_variables (create_prompt sm extra)
  ∧ "input" ∈ chat_input_variables (create_prompt sm extra).
Proof.
  split; apply elem_of_chat_input_variables.
  - exists (MessagesPlaceholder "agent_scratchpad"). split; [by left|].
    unfold create_prompt. simpl. rewrite !elem_of_app. right. right.
    right. by left.
  - exists (HumanMessagePromptTemplate [Var "input"]). split; [by left|].
    unfold create_prompt. simpl. rewrite !elem_of_app. right. right. by left.
Qed.

(** The two closing slots of both factories, rendered. *)
Lemma format_input_and_scratchpad (inputs : gmap string PyValue) v scratchpad :
  inputs !! "input" = Some v →
  inputs !! "agent_scratchpad" = Some (VMessages scratchpad) →
  format_messages inputs
    [ HumanMessagePromptTemplate [Var "input"];
      MessagesPlaceholder "agent_scratchpad" ]
  = Returns (HumanMessage (fstr v) :: scratchpad).
Proof.
  intros Hv Hs. cbn [format_messages format_slot format_template format_piece].
  rewrite Hv, Hs. by rewrite string_append_empty_r, app_nil_r.
Qed.

Lemma format_messages_cons (inputs : gmap string PyValue) slot rest :
  format_messages inputs (slot :: rest)
  = match format_slot inputs slot with
    | Raises e => Raises e
    | Returns ms =>
        match format_messages inputs rest with
        | Raises e => Raises e
        | Returns ms' => Returns (ms ++ ms')
        end
    end.
Proof. reflexivity. Qed.

Lemma format_create_prompt (inputs : gmap string PyValue) sm v scratchpad :
  inputs !! "input" = Some v →
  inputs !! "agent_scratchpad" = Some (VMessages scratchpad) →
  format_messages inputs (messages (create_prompt sm None))
  = Returns (option_list sm ++ HumanMessage (fstr v) :: scratchpad).
Proof.
  intros Hv Hs. pose proof (format_input_and_scratchpad inputs v scratchpad Hv Hs)
    as Htail.
  destruct sm as [m|]; unfold create_prompt; simpl messages.
  - rewrite format_messages_cons. cbn [format_slot]. by rewrite Htail.
  - exact Htail.
Qed.

Lemma format_create_default_prompt (inputs : gmap string PyValue) sm
    (include_chat_history : bool) v history scratchpad :
  inputs !! "input" = Some v →
  inputs !! "agent_scratchpad" = Some (VMessages scratchpad) →
  (include_chat_history = true →
   inputs !! "chat_history" = Some (VMessages history)) →
  format_messages inputs
    (messages (create_default_prompt sm include_chat_history))
  = Returns (SystemMessage sm
             :: (if include_chat_history then history else [])
             ++ HumanMessage (fstr v) :: scratchpad).
Proof.
  intros Hv Hs Hh. pose proof (format_input_and_scratchpad inputs v scratchpad Hv Hs)
    as Htail.
  destruct include_chat_history; unfold create_default_prompt; simpl messages.
  - do 2 rewrite format_messages_cons. cbn [format_slot].
    by rewrite (Hh eq_refl), Htail.
  - rewrite format_messages_cons. cbn [format_slot]. by rewrite Htail.
Qed.

Lemma create_prompt_variables sm :
  chat_input_variables (create_prompt sm None) = ["agent_scratchpad"; "input"].
Proof. destruct sm; vm_compute; reflexivity. Qed.

Lemma create_default_prompt_variables sm (include_chat_history : bool) :
  chat_input_variables (create_default_prompt sm include_chat_history)
  = if include_chat_history
    then ["agent_scratchpad"; "chat_history"; "input"]
    else ["agent_scratchpad"; "input"].
Proof. destruct include_chat_history; vm_compute; reflexivity. Qed.

(** What an agent over [create_prompt] without extra slots renders. *)
Lemma create_prompt_agent_renders (model : BaseLanguageModel)
    (toolbox : list BaseTool) (sm : option BaseMessage) steps
    (kwargs : gmap string PyValue) :
  rendered_messages
    (mkAgent model toolbox (chat_prompt (create_prompt sm None))) steps kwargs
  = match kwargs !! "input" with
    | Some v =>
        Returns (option_list sm
                 ++ HumanMessage (fstr v)
                 :: format_to_openai_function_messages steps)
    | None => Raises (KeyError "input")
    end.
Proof.
  set (self := mkAgent model toolbox (chat_prompt (create_prompt sm None))).
  assert (input_variables (prompt self) = ["agent_scratchpad"; "input"])
    as Hvars by apply create_prompt_variables.
  assert (not_scratchpad "agent_scratchpad" = false) as Hsp by reflexivity.
  assert (not_scratchpad "input" = true) as Hinput by reflexivity.
  unfold rendered_messages. destruct (kwargs !! "input") as [v|] eqn:Hv.
  - destruct (full_inputs_returns self steps kwargs) as (inputs & -> & Hlook).
    { rewrite Hvars. cbn [first_missing]. by rewrite Hsp, Hinput, Hv. }
    unfold self at 1, chat_prompt at 1. cbn [prompt format_prompt].
    rewrite (format_create_prompt inputs sm v
               (format_to_openai_function_messages steps)); [done| |].
    + rewrite Hlook, Hvars. rewrite decide_False by discriminate.
      rewrite bool_decide_eq_true_2; [done|]. right. by left.
    + rewrite Hlook. by rewrite decide_True.
  - rewrite (full_inputs_raises self steps kwargs "input"); [done|].
    rewrite Hvars. cbn [first_missing]. by rewrite Hsp, Hinput, Hv.
Qed.

(** X7. [from_llm_and_tools] never fails: whatever the system message and
    the extra slots, the prompt it builds declares ["agent_scratchpad"], so
    the constructor accepts it; the agent holds the given model and tools,
    and its input keys are variables of its prompt. *)
Theorem from_llm_and_tools_always_builds (model : BaseLanguageModel)
    (toolbox : list BaseTool) (extra_prompt_messages : option (list MessageLike))
    (system_message : option BaseMessage) :
  ∃ agent,
    from_llm_and_tools model toolbox extra_prompt_messages system_message
    = Returns agent
    ∧ llm agent = model ∧ tools agent = toolbox
    ∧ "agent_scratchpad" ∈ input_variables (prompt agent)
    ∧ ∀ k, k ∈ input_keys agent → k ∈ input_variables (prompt agent).
Proof.
  destruct (create_prompt_declares_input_and_scratchpad system_message
              extra_prompt_messages) as [Hsp Hinput].
  eexists. split.
  - unfold from_llm_and_tools.
    apply constructor_accepts_declared_scratchpad. by split.
  - simpl. repeat split; [done|].
    intros k Hk. unfold input_keys in Hk.
    by apply list_elem_of_singleton in Hk as ->.
Qed.

(** X14. An agent built by [from_llm_and_tools] without extra slots sends
    the model the system message (when there is one), then the human message
    with the text of ["input"], then the messages of the steps so far. *)
Theorem default_agent_renders_input_then_scratchpad (model : BaseLanguageModel)
    (toolbox : list BaseTool) (system_message : option BaseMessage)
    agent steps (kwargs : gmap string PyValue) v :
  from_llm_and_tools model toolbox None system_message = Returns agent →
  kwargs !! "input" = Some v →
  rendered_messages agent steps kwargs
  = Returns (option_list system_message
             ++ HumanMessage (fstr v)
             :: format_to_openai_function_messages steps).
Proof.
  intros Hbuild Hv. unfold from_llm_and_tools in Hbuild.
  apply constructor_accepts_declared_scratchpad in Hbuild as [_ ->].
  unfold rendered_messages.
  destruct (full_inputs_returns
              (mkAgent model toolbox (chat_prompt (create_prompt system_message None)))
              steps kwargs) as (inputs & -> & Hlook).
  { apply first_missing_none. intros k Hk Hkeep. simpl in Hk.
    rewrite create_prompt_variables in Hk.
    apply not_scratchpad_true in Hkeep.
    apply elem_of_cons in Hk as [->|Hk]; [done|].
    apply list_elem_of_singleton in Hk as ->. by rewrite Hv. }
  unfold chat_prompt at 1. cbn [prompt format_prompt].
  rewrite (format_create_prompt inputs system_message v
             (format_to_openai_function_messages steps)); [done| |].
  - rewrite Hlook. cbn [prompt input_variables chat_prompt].
    rewrite create_prompt_variables.
    rewrite decide_False by discriminate.
    rewrite bool_decide_eq_true_2; [done|]. right. by left.
  - rewrite Hlook. by rewrite decide_True.
Qed.

(** X8. [create_default_prompt] without chat history builds the template of
    [create_prompt] for that system message; it declares ["input"] and
    ["agent_scratchpad"], and ["chat_history"] exactly when it was asked to
    include the history. *)
Theorem default_prompt_matches_agent_prompt (system_message : string)
    (include_chat_history : bool) :
  create_default_prompt system_message false
  = create_prompt (Some (SystemMessage system_message)) None
  ∧ input_variables
      (chat_prompt (create_default_prompt system_message include_chat_history))
    = (if include_chat_history
       then ["agent_scratchpad"; "chat_history"; "input"]
       else ["agent_scratchpad"; "input"])
  ∧ ("chat_history"
     ∈ input_variables
         (chat_prompt (create_default_prompt system_message include_chat_history))
     ↔ include_chat_history = true).
Proof.
  split; [reflexivity|]. simpl. rewrite create_default_prompt_variables.
  split; [done|]. destruct include_chat_history.
  - split; [done|]. intros _. right. by left.
  - split; [|done]. intros Hin.
    apply elem_of_cons in Hin as [Hin|Hin]; [discriminate Hin|].
    by apply list_elem_of_singleton in Hin.
Qed.

(** X9. The documented use: the pipeline built over [create_default_prompt]
    is always created, and on an input holding ["input"], the steps and, when
    the history is included, ["chat_history"], it calls the model once with
    the system message, the history, the human message and the messages of
    the steps, in this order, and the schemas of the tools. *)
Theorem documented_pipeline_sends_history_input_scratchpad
    (model : BaseLanguageModel) (toolbox : list BaseTool)
    (system_message : string) (include_chat_history : bool)
    (x : gmap string PyValue) v history steps s :
  x !! "input" = Some v →
  x !! "intermediate_steps" = Some (VSteps steps) →
  (include_chat_history = true → x !! "chat_history" = Some (VMessages history)) →
  ∃ pipeline,
    create_openai_functions_agent model toolbox
      (chat_prompt (create_default_prompt system_message include_chat_history))
    = Returns pipeline
    ∧ calls (pipeline x s)
      = s ++ [mkModelCall Invoke
                (SystemMessage system_message
                 :: (if include_chat_history then history else [])
                 ++ HumanMessage (fstr v)
                 :: format_to_openai_function_messages steps)
                (Some (map format_tool_to_openai_function toolbox)) None].
Proof.
  intros Hv Hsteps Hhistory.
  set (p := chat_prompt (create_default_prompt system_message include_chat_history)).
  assert (input_variables p
          = if include_chat_history
            then ["agent_scratchpad"; "chat_history"; "input"]
            else ["agent_scratchpad"; "input"]) as Hvars.
  { subst p. simpl. apply create_default_prompt_variables. }
  assert ("agent_scratchpad" ∈ input_variables p) as Hsp.
  { rewrite Hvars. destruct include_chat_history; by left. }
  unfold create_openai_functions_agent.
  rewrite decide_False by (by intros Hno).
  eexists. split; [reflexivity|].
  unfold pipe, RunnablePassthrough_assign, prompt_runnable, llm_bind,
    OpenAIFunctionsAgentOutputParser, scratchpad_of_input, bind, lift, ret,
    call_model.
  rewrite Hsteps.
  set (x' := <["agent_scratchpad" :=
                 VMessages (format_to_openai_function_messages steps)]> x).
  assert (x' !! "agent_scratchpad"
          = Some (VMessages (format_to_openai_function_messages steps))) as Hx'sp.
  { subst x'. by rewrite lookup_insert_eq. }
  assert (x' !! "input" = Some v) as Hx'v.
  { subst x'. by rewrite lookup_insert_ne. }
  destruct (dict_comprehension_returns (λ _, true) ∅ (input_variables p) x')
    as (inputs & Hinputs & Hlook).
  { apply first_missing_none. intros k Hk _. rewrite Hvars in Hk.
    destruct include_chat_history.
    - apply elem_of_cons in Hk as [->|Hk]; [by rewrite Hx'sp|].
      apply elem_of_cons in Hk as [->|Hk].
      + subst x'. rewrite lookup_insert_ne by done. by rewrite Hhistory.
      + apply list_elem_of_singleton in Hk as ->. by rewrite Hx'v.
    - apply elem_of_cons in Hk as [->|Hk]; [by rewrite Hx'sp|].
      apply list_elem_of_singleton in Hk as ->. by rewrite Hx'v. }
  cbv beta. rewrite Hinputs. unfold p at 1, chat_prompt at 1.
  cbn [format_prompt].
  rewrite (format_create_default_prompt inputs system_message
             include_chat_history v history
             (format_to_openai_function_messages steps)).
  - simpl. by destruct (invoke model _ _).
  - rewrite Hlook, andb_true_r, Hvars.
    rewrite bool_decide_eq_true_2; [done|].
    destruct include_chat_history; set_solver.
  - rewrite Hlook, andb_true_r. by rewrite (bool_decide_eq_true_2 _ Hsp).
  - intros ->. rewrite Hlook, andb_true_r, Hvars.
    rewrite bool_decide_eq_true_2 by set_solver.
    subst x'. rewrite lookup_insert_ne by done. by apply Hhistory.
Qed.

End Further.

(** ** The scenario, run *)

Import MiniRuntime Scenario.

Example default_prompt_variables :
  input_variables default_prompt = ["agent_scratchpad"; "input"].
Proof. vm_compute. reflexivity. Qed.

Example decode_weather_query :
  json_loads weather_query = Some (JObj [("q", JStr "weather today")])
  ∧ json_dumps (JObj [("q", JStr "weather today")]) = weather_query.
Proof. split; vm_compute; reflexivity. Qed.

Example render_first_messages :
  rendered_messages (agent sunny) [] user_input = Returns first_messages.
Proof. vm_compute. reflexivity. Qed.

Example render_after_one_step :
  rendered_messages (agent sunny) one_step user_input
  = Returns (first_messages
             ++ [ AIMessage "" (Some (mkFunctionCall "search" weather_query));
                  FunctionMessage "search" "Sunny, 21 degrees." ]).
Proof. vm_compute. reflexivity. Qed.

Example plan_requests_search :
  result (plan (agent asks_search) [] None true user_input [])
  = Returns (Action searched).
Proof. vm_compute. reflexivity. Qed.

Example plan_finishes_with_text :
  result (plan (agent sunny) [] None true user_input [])
  = Returns (Finish (mkAgentFinish {[ "output" := "It is sunny." ]}
                       "It is sunny.")).
Proof. vm_compute. reflexivity. Qed.

Example plan_rejects_broken_arguments :
  ∃ msg, result (plan (agent broken_request) [] None true user_input [])
         = Raises (OutputParserException msg).
Proof. eexists. vm_compute. reflexivity. Qed.

Example from_llm_and_tools_builds_the_agent :
  from_llm_and_tools (answering sunny) [search] None
    (Some default_system_message)
  = Returns (agent sunny).
Proof. vm_compute. reflexivity. Qed.

(** ** Instances of the claims on the scenario *)

Lemma plan_follows_parsing_policy_witness :
  rendered_messages (agent asks_search) [] user_input = Returns first_messages
  ∧ follows_parsing_policy asks_search
      (result (plan (agent asks_search) [] None true user_input []))
  ∧ follows_parsing_policy asks_search
      (result (aplan (agent asks_search) [] None user_input [])).
Proof.
  assert (rendered_messages (agent asks_search) [] user_input
          = Returns first_messages) as Hr by (vm_compute; reflexivity).
  destruct (plan_follows_parsing_policy (agent asks_search) [] None
              user_input [] first_messages Hr) as [Hplan Haplan].
  split; [exact Hr|]. split.
  - apply (Hplan true asks_search). reflexivity.
  - apply (Haplan asks_search). reflexivity.
Defined.

Lemma format_steps_two_messages_per_step_witness :
  one_step !! 0 = Some (searched, "Sunny, 21 degrees.")
  ∧ format_to_openai_function_messages one_step !! (2 * 0)
    = Some (AIMessage ""
              (Some (mkFunctionCall (tool searched)
                       (json_dumps (tool_input searched)))))
  ∧ format_to_openai_function_messages one_step !! (2 * 0 + 1)
    = Some (FunctionMessage (tool searched) "Sunny, 21 degrees.").
Proof.
  destruct (format_steps_two_messages_per_step one_step)
    as (_ & _ & Hpositions & _).
  split; [reflexivity|].
  apply (Hpositions 0 searched "Sunny, 21 degrees."). reflexivity.
Defined.

Lemma construction_rejects_prompt_without_scratchpad_witness :
  ("agent_scratchpad" ∉ input_variables prompt_without_scratchpad)
  ∧ (∃ msg, new_OpenAIFunctionsAgent (answering sunny) [search]
              prompt_without_scratchpad = Raises (ValueError msg))
  ∧ (∃ msg, create_openai_functions_agent (answering sunny) [search]
              prompt_without_scratchpad = Raises (ValueError msg)).
Proof.
  assert ("agent_scratchpad" ∉ input_variables prompt_without_scratchpad)
    as Hno.
  { apply (bool_decide_unpack _). vm_compute. exact I. }
  destruct (construction_rejects_prompt_without_scratchpad
              (answering sunny) [search] prompt_without_scratchpad Hno)
    as (Hnew & Hcreate & _).
  split; [exact Hno|]. split; [exact Hnew|exact Hcreate].
Defined.

Lemma unknown_selector_is_rejected_witness :
  "stop" ≠ "force" ∧ "stop" ≠ "generate"
  ∧ ∃ msg,
      return_stopped_response (agent sunny) "stop" [] user_input []
      = (Raises (ValueError msg), [])
      ∧ mentions "force" msg ∧ mentions "generate" msg.
Proof.
  assert ("stop" ≠ "force") as Hforce by discriminate.
  assert ("stop" ≠ "generate") as Hgenerate by discriminate.
  split; [exact Hforce|]. split; [exact Hgenerate|].
  exact (unknown_selector_is_rejected (agent sunny) "stop" [] user_input []
           Hforce Hgenerate).
Defined.

Lemma generate_plans_once_without_tools_witness :
  traced_input !! "with_functions" = None
  ∧ rendered_messages (agent sunny) [] (delete "callbacks" traced_input)
    = Returns first_messages
  ∧ calls (return_stopped_response (agent sunny) "generate" [] traced_input [])
    = [] ++ [mkModelCall PredictMessages first_messages None
               (traced_input !! "callbacks")]
  ∧ result (plan (agent asks_search) [] (user_input !! "callbacks") false
              (delete "callbacks" user_input) [])
    = Returns (Action searched)
  ∧ ∃ msg,
      result (return_stopped_response (agent asks_search) "generate" []
                user_input [])
      = Raises (ValueError msg)
      ∧ mentions "got AgentAction with no functions provided" msg.
Proof.
  assert (traced_input !! "with_functions" = None) as Hfree by reflexivity.
  assert (user_input !! "with_functions" = None) as Hfree' by reflexivity.
  assert (rendered_messages (agent sunny) [] (delete "callbacks" traced_input)
          = Returns first_messages) as Hr by (vm_compute; reflexivity).
  assert (result (plan (agent asks_search) [] (user_input !! "callbacks") false
                    (delete "callbacks" user_input) [])
          = Returns (Action searched)) as Haction by (vm_compute; reflexivity).
  destruct (generate_plans_once_without_tools (agent sunny) [] traced_input []
              Hfree) as (_ & _ & Hone & _).
  destruct (generate_plans_once_without_tools (agent asks_search) []
              user_input [] Hfree') as (_ & _ & _ & _ & Hraise).
  split; [exact Hfree|]. split; [exact Hr|].
  split; [exact (Hone first_messages Hr)|].
  split; [exact Haction|]. exact (Hraise searched Haction).
Defined.

(** C5, as stated, fails for variables that hold an entry
    ["with_functions"]: the entry repeats the keyword of the call to [plan],
    so the operation raises [TypeError] and calls no model, although the
    other variables render and the model would answer with a finish; no
    planning call of this agent has that outcome. *)
Lemma generate_fails_on_with_functions_entry :
  return_stopped_response (agent sunny) "generate" [] flagged_input []
  = ( Raises
        (TypeError
           "OpenAIFunctionsAgent.plan() got multiple values for keyword argument 'with_functions'"),
      [] )
  ∧ rendered_messages (agent sunny) [] user_input = Returns first_messages
  ∧ plan (agent sunny) [] None false user_input []
    = ( Returns (Finish sunny_finish),
        [mkModelCall PredictMessages first_messages None None] )
  ∧ ∀ callbacks with_functions kwargs s msg,
      result (plan (agent sunny) [] callbacks with_functions kwargs s)
      ≠ Raises (TypeError msg).
Proof.
  split; [vm_compute; reflexivity|]. split; [vm_compute; reflexivity|].
  split; [vm_compute; reflexivity|].
  intros callbacks with_functions kwargs s msg.
  pose proof (create_prompt_agent_renders (answering sunny) [search]
                (Some default_system_message) [] kwargs) as Hr.
  change (mkAgent (answering sunny) [search]
            (chat_prompt (create_prompt (Some default_system_message) None)))
    with (agent sunny) in Hr.
  destruct (kwargs !! "input") as [v|].
  - rewrite (plan_calls_once _ _ _ _ _ _ _ Hr). unfold result. simpl.
    discriminate.
  - rewrite (plan_raises_before_call _ _ _ _ _ _ _ Hr). unfold result. simpl.
    discriminate.
Qed.

Lemma plan_and_aplan_agree_by_keywords_witness :
  ("with_functions" ∉ input_variables (prompt (agent asks_search))
   ∨ traced_input !! "with_functions" = None)
  ∧ given_twice traced_input = None
  ∧ result (plan_by_keywords (agent asks_search) one_step traced_input [])
    = result (aplan_by_keywords (agent asks_search) one_step traced_input [])
  ∧ ∀ d, result (plan_by_keywords (agent asks_search) one_step traced_input [])
         = Returns d
         ↔ result (aplan_by_keywords (agent asks_search) one_step traced_input [])
           = Returns d.
Proof.
  assert ("with_functions" ∉ input_variables (prompt (agent asks_search))
          ∨ traced_input !! "with_functions" = None) as Hflag.
  { right. reflexivity. }
  assert (∀ v, traced_input !! "with_functions" = Some v → truthy v = true)
    as Htrue.
  { intros v Hv. vm_compute in Hv. discriminate Hv. }
  assert (∀ messages,
            rendered_messages (agent asks_search) one_step
              (delete "callbacks" traced_input) = Returns messages →
            predict_messages (llm (agent asks_search)) messages
              (Some (functions (agent asks_search)))
            = apredict_messages (llm (agent asks_search)) messages
                (Some (functions (agent asks_search)))) as Hsame.
  { intros messages _. reflexivity. }
  assert (given_twice traced_input = None) as Htwice by reflexivity.
  destruct (proj1 (plan_and_aplan_agree_by_keywords (agent asks_search) one_step
                     traced_input []) Hflag Htrue Hsame)
    as (Hdecision & Hresult & _).
  split; [exact Hflag|]. split; [exact Htwice|].
  split; [exact (Hresult Htwice)|exact Hdecision].
Defined.

(** C7, as stated, fails for a prompt that declares ["with_functions"]:
    [plan] takes the keyword for its own parameter, so the variable is
    missing and the call raises [KeyError], while [aplan] passes it to the
    prompt, calls the model and finishes. *)
Lemma plan_and_aplan_differ_on_declared_flag :
  let self := mkAgent (answering sunny) [search] (prompt_over "with_functions") in
  truthy (VBool true) = true
  ∧ predict_messages (llm self) = apredict_messages (llm self)
  ∧ plan_by_keywords self [] flagged_input []
    = (Raises (KeyError "with_functions"), [])
  ∧ aplan_by_keywords self [] flagged_input []
    = ( Returns (Finish sunny_finish),
        [mkModelCall APredictMessages [HumanMessage "weather today True"]
           (Some (functions self)) None] )
  ∧ result (plan_by_keywords self [] flagged_input [])
    ≠ result (aplan_by_keywords self [] flagged_input []).
Proof.
  intros self. split; [reflexivity|]. split; [reflexivity|].
  split; [vm_compute; reflexivity|]. split; [vm_compute; reflexivity|].
  vm_compute. discriminate.
Qed.

Lemma planning_needs_declared_variables_witness :
  ("input" ∈ input_variables (prompt (agent sunny))
   ∧ "input" ≠ "agent_scratchpad"
   ∧ (∅ : gmap string PyValue) !! "input" = None
   ∧ ∃ missing,
       plan (agent sunny) [] None true ∅ [] = (Raises (KeyError missing), [])
       ∧ aplan (agent sunny) [] None ∅ [] = (Raises (KeyError missing), []))
  ∧ ((∀ k, k ∈ input_variables (prompt (agent sunny)) →
           k ≠ "agent_scratchpad" → is_Some (user_input !! k))
     ∧ ∃ inputs,
         full_inputs (agent sunny) one_step user_input = Returns inputs
         ∧ ∀ k, k ∈ input_variables (prompt (agent sunny)) →
                is_Some (inputs !! k)).
Proof.
  assert ("input" ∈ input_variables (prompt (agent sunny))) as Hin.
  { apply (bool_decide_unpack _). vm_compute. exact I. }
  assert ("input" ≠ "agent_scratchpad") as Hne by discriminate.
  assert (∀ k, k ∈ input_variables (prompt (agent sunny)) →
               k ≠ "agent_scratchpad" → is_Some (user_input !! k)) as Hall.
  { intros k Hk Hk'.
    change (k ∈ input_variables default_prompt) in Hk.
    rewrite default_prompt_variables in Hk.
    apply elem_of_cons in Hk as [->|Hk]; [done|].
    apply list_elem_of_singleton in Hk as ->. by eexists. }
  split.
  - destruct (proj1 (planning_needs_declared_variables (agent sunny) [] None
                       true ∅ []) "input" Hin Hne (lookup_empty _))
      as (missing & _ & _ & _ & Hplan & Haplan).
    split; [exact Hin|]. split; [exact Hne|]. split; [apply lookup_empty|].
    exists missing. split; [exact Hplan|exact Haplan].
  - destruct (proj2 (planning_needs_declared_variables (agent sunny) one_step
                       None true user_input []) Hall)
      as (inputs & Hinputs & Hfull & _).
    split; [exact Hall|]. exists inputs. split; [exact Hinputs|exact Hfull].
Defined.

Lemma undeclared_inputs_do_not_interfere_witness :
  let noisy : gmap string PyValue :=
    <["agent_scratchpad" := VStr "mine"]> (<["verbose" := VStr "yes"]> user_input)
  in
  (∀ k, k ∈ input_variables (prompt (agent sunny)) → k ≠ "agent_scratchpad" →
        user_input !! k = noisy !! k)
  ∧ rendered_messages (agent sunny) one_step user_input
    = rendered_messages (agent sunny) one_step noisy
  ∧ plan (agent sunny) one_step None true user_input []
    = plan (agent sunny) one_step None true noisy [].
Proof.
  intros noisy.
  assert (∀ k, k ∈ input_variables (prompt (agent sunny)) →
               k ≠ "agent_scratchpad" → user_input !! k = noisy !! k) as Hagree.
  { intros k Hk Hk'.
    change (k ∈ input_variables default_prompt) in Hk.
    rewrite default_prompt_variables in Hk.
    apply elem_of_cons in Hk as [->|Hk]; [done|].
    apply list_elem_of_singleton in Hk as ->. reflexivity. }
  destruct (undeclared_inputs_do_not_interfere (agent sunny) one_step None true
              [] user_input noisy Hagree) as (Hr & Hplan & _).
  split; [exact Hagree|]. split; [exact Hr|exact Hplan].
Defined.

(** C8, as stated, fails wherever a name that [plan] takes for itself is in
    the way.  With a prompt that declares ["intermediate_steps"],
    ["with_functions"] or ["callbacks"], the pipeline passes the entry to the
    prompt and finishes, while [plan] binds it to its parameter and raises
    [KeyError] for the missing variable; with an entry ["self"] the pipeline
    finishes and the call of [plan] raises [TypeError]. *)
Lemma pipeline_differs_on_reserved_names :
  invoke (answering sunny) = predict_messages (answering sunny)
  ∧ pipeline_input !! "intermediate_steps" = Some (VSteps [])
  ∧ ( pipeline_outcome prompt_over_steps pipeline_input
      = Returns (Finish sunny_finish)
      ∧ plan_outcome prompt_over_steps [] pipeline_input
        = Raises (KeyError "intermediate_steps") )
  ∧ ( pipeline_outcome (prompt_over "with_functions")
        (<["with_functions" := VBool true]> pipeline_input)
      = Returns (Finish sunny_finish)
      ∧ plan_outcome (prompt_over "with_functions") []
          (<["with_functions" := VBool true]> pipeline_input)
        = Raises (KeyError "with_functions") )
  ∧ ( pipeline_outcome (prompt_over "callbacks")
        (<["callbacks" := VNames ["tracer"]]> pipeline_input)
      = Returns (Finish sunny_finish)
      ∧ plan_outcome (prompt_over "callbacks") []
          (<["callbacks" := VNames ["tracer"]]> pipeline_input)
        = Raises (KeyError "callbacks") )
  ∧ ( pipeline_outcome default_prompt (<["self" := VStr "me"]> pipeline_input)
      = Returns (Finish sunny_finish)
      ∧ plan_outcome default_prompt [] (<["self" := VStr "me"]> pipeline_input)
        = Raises (multiple_values "plan" "self") ).
Proof.
  split; [reflexivity|]. split; [reflexivity|].
  repeat split; vm_compute; reflexivity.
Qed.

Lemma pipeline_agrees_with_plan_witness :
  let x := <["callbacks" := VNames ["tracer"]]> pipeline_input in
  x !! "intermediate_steps" = Some (VSteps [])
  ∧ ("intermediate_steps" ∉ input_variables default_prompt)
  ∧ x !! "self" = None
  ∧ (∀ k, k = "callbacks" ∨ k = "with_functions" → is_Some (x !! k) →
          k ∉ input_variables default_prompt)
  ∧ match create_openai_functions_agent (answering asks_search) [search]
            default_prompt with
    | Raises _ => False
    | Returns pipeline =>
        ∀ d, result (pipeline x []) = Returns d
             ↔ result (plan_by_keywords
                         (mkAgent (answering asks_search) [search] default_prompt)
                         [] (delete "intermediate_steps" x) [])
               = Returns d
    end.
Proof.
  intros x.
  assert ("intermediate_steps" ∉ input_variables default_prompt) as Hno.
  { apply (bool_decide_unpack _). vm_compute. exact I. }
  assert (∀ k, k = "callbacks" ∨ k = "with_functions" → is_Some (x !! k) →
               k ∉ input_variables default_prompt) as Hreserved.
  { intros k [-> | ->] [v Hv].
    - apply (bool_decide_unpack _). vm_compute. exact I.
    - vm_compute in Hv. discriminate Hv. }
  assert (∀ v, x !! "with_functions" = Some v → truthy v = true) as Htrue.
  { intros v Hv. vm_compute in Hv. discriminate Hv. }
  split; [reflexivity|]. split; [exact Hno|]. split; [reflexivity|].
  split; [exact Hreserved|].
  destruct (create_openai_functions_agent (answering asks_search) [search]
              default_prompt) as [pipeline|e] eqn:Hcreate.
  - refine (proj1 (pipeline_agrees_with_plan (answering asks_search) [search]
                     default_prompt pipeline x [] []
                     Hcreate eq_refl Hno eq_refl Hreserved Htrue _)).
    intros messages _. reflexivity.
  - vm_compute in Hcreate. discriminate Hcreate.
Defined.

(** ** Instances of the further properties on the scenario *)

Lemma planning_calls_the_model_exactly_once_witness :
  let self := mkAgent (failing (ModelError "rate limit")) [search] default_prompt in
  rendered_messages self [] user_input = Returns first_messages
  ∧ calls (plan self [] None true user_input [])
    = [] ++ [mkModelCall PredictMessages first_messages
               (Some (functions self)) None]
  ∧ result (plan self [] None true user_input [])
    = Raises (ModelError "rate limit")
  ∧ result (aplan self [] None user_input []) = Raises (ModelError "rate limit").
Proof.
  intros self.
  assert (rendered_messages self [] user_input = Returns first_messages) as Hr
    by (vm_compute; reflexivity).
  destruct (planning_calls_the_model_exactly_once self [] None true user_input
              [] first_messages Hr) as (Hcalls & _ & Hplan & Haplan).
  split; [exact Hr|]. split; [exact Hcalls|]. split.
  - apply Hplan. reflexivity.
  - apply Haplan. reflexivity.
Defined.

Lemma key_error_names_first_missing_variable_witness :
  let self := mkAgent (answering sunny) [search] history_prompt in
  input_variables (prompt self)
  = ["agent_scratchpad"] ++ "chat_history" :: ["input"]
  ∧ user_input !! "chat_history" = None
  ∧ plan self [] None true user_input [] = (Raises (KeyError "chat_history"), [])
  ∧ aplan self [] None user_input [] = (Raises (KeyError "chat_history"), []).
Proof.
  intros self.
  assert (input_variables (prompt self)
          = ["agent_scratchpad"] ++ "chat_history" :: ["input"]) as Hvars
    by (vm_compute; reflexivity).
  assert (user_input !! "chat_history" = None) as Hnone by reflexivity.
  assert (∀ k', k' ∈ ["agent_scratchpad"] → k' ≠ "agent_scratchpad" →
                is_Some (user_input !! k')) as Hbefore.
  { intros k' Hk' Hne. by apply list_elem_of_singleton in Hk'. }
  destruct (key_error_names_first_missing_variable self [] None true user_input
              [] ["agent_scratchpad"] ["input"] "chat_history"
              Hvars ltac:(discriminate) Hnone Hbefore) as [Hplan Haplan].
  split; [exact Hvars|]. split; [exact Hnone|]. split; [exact Hplan|exact Haplan].
Defined.

Lemma generate_returns_what_planning_finishes_witness :
  is_Some (flagged_input !! "with_functions")
  ∧ (∃ msg,
       return_stopped_response (agent sunny) "generate" [] flagged_input []
       = (Raises (TypeError msg), []))
  ∧ traced_input !! "with_functions" = None
  ∧ result (plan (agent sunny) [] (traced_input !! "callbacks") false
              (delete "callbacks" traced_input) [])
    = Returns (Finish sunny_finish)
  ∧ result (return_stopped_response (agent sunny) "generate" [] traced_input [])
    = Returns sunny_finish
  ∧ result (plan (agent sunny) [] ((∅ : gmap string PyValue) !! "callbacks")
              false (delete "callbacks" ∅) [])
    = Raises (KeyError "input")
  ∧ result (return_stopped_response (agent sunny) "generate" [] ∅ [])
    = Raises (KeyError "input").
Proof.
  assert (is_Some (flagged_input !! "with_functions")) as Hflag
    by (by eexists).
  assert (traced_input !! "with_functions" = None) as Hfree by reflexivity.
  assert ((∅ : gmap string PyValue) !! "with_functions" = None) as Hfree'
    by reflexivity.
  assert (result (plan (agent sunny) [] (traced_input !! "callbacks") false
                    (delete "callbacks" traced_input) [])
          = Returns (Finish sunny_finish)) as Hfinish
    by (vm_compute; reflexivity).
  assert (result (plan (agent sunny) []
                    ((∅ : gmap string PyValue) !! "callbacks") false
                    (delete "callbacks" ∅) [])
          = Raises (KeyError "input")) as Hraise by (vm_compute; reflexivity).
  destruct (generate_returns_what_planning_finishes (agent sunny) []
              flagged_input []) as [Hclash _].
  destruct (proj2 (generate_returns_what_planning_finishes (agent sunny) []
                     traced_input []) Hfree) as [Hiff _].
  destruct (proj2 (generate_returns_what_planning_finishes (agent sunny) []
                     ∅ []) Hfree') as [_ Herr].
  split; [exact Hflag|]. split; [exact (Hclash Hflag)|].
  split; [exact Hfree|]. split; [exact Hfinish|].
  split; [apply Hiff; exact Hfinish|].
  split; [exact Hraise|]. apply Herr. exact Hraise.
Defined.

Lemma offered_functions_name_the_allowed_tools_witness :
  tools (agent sunny) !! 0 = Some search
  ∧ functions (agent sunny) !! 0
    = Some (mkFunctionDescription (name search) (description search)
              (args search))
  ∧ map fd_name (functions (agent sunny)) = get_allowed_tools (agent sunny).
Proof.
  destruct (offered_functions_name_the_allowed_tools (agent sunny))
    as (Hnames & _ & Hschema).
  split; [reflexivity|]. split; [|exact Hnames].
  apply (Hschema 0 search). reflexivity.
Defined.

Lemma from_llm_and_tools_always_builds_witness :
  ∃ built,
    from_llm_and_tools (answering sunny) [search]
      (Some [MessagesPlaceholder "chat_history"]) None
    = Returns built
    ∧ "input" ∈ input_keys built
    ∧ "input" ∈ input_variables (prompt built).
Proof.
  destruct (from_llm_and_tools_always_builds (answering sunny) [search]
              (Some [MessagesPlaceholder "chat_history"]) None)
    as (built & Hbuilt & _ & _ & _ & Hkeys).
  assert ("input" ∈ input_keys built) as Hin by (by left).
  exists built. split; [exact Hbuilt|]. split; [exact Hin|].
  apply Hkeys. exact Hin.
Defined.

Lemma default_agent_renders_input_then_scratchpad_witness :
  from_llm_and_tools (answering sunny) [search] None
    (Some default_system_message)
  = Returns (agent sunny)
  ∧ user_input !! "input" = Some (VStr "weather today")
  ∧ rendered_messages (agent sunny) one_step user_input
    = Returns (option_list (Some default_system_message)
               ++ HumanMessage (fstr (VStr "weather today"))
               :: format_to_openai_function_messages one_step).
Proof.
  assert (from_llm_and_tools (answering sunny) [search] None
            (Some default_system_message) = Returns (agent sunny)) as Hbuilt
    by (vm_compute; reflexivity).
  assert (user_input !! "input" = Some (VStr "weather today")) as Hv
    by reflexivity.
  split; [exact Hbuilt|]. split; [exact Hv|].
  exact (default_agent_renders_input_then_scratchpad (answering sunny) [search]
           (Some default_system_message) (agent sunny) one_step user_input
           (VStr "weather today") Hbuilt Hv).
Defined.

Lemma documented_pipeline_sends_history_input_scratchpad_witness :
  pipeline_input_with_history !! "input" = Some (VStr "weather today")
  ∧ pipeline_input_with_history !! "intermediate_steps" = Some (VSteps one_step)
  ∧ pipeline_input_with_history !! "chat_history" = Some (VMessages earlier_talk)
  ∧ ∃ pipeline,
      create_openai_functions_agent (answering sunny) [search]
        (chat_prompt (create_default_prompt "You are a helpful AI assistant." true))
      = Returns pipeline
      ∧ calls (pipeline pipeline_input_with_history [])
        = [] ++ [mkModelCall Invoke
                   (SystemMessage "You are a helpful AI assistant."
                    :: earlier_talk
                    ++ HumanMessage (fstr (VStr "weather today"))
                    :: format_to_openai_function_messages one_step)
                   (Some (map format_tool_to_openai_function [search])) None].
Proof.
  assert (pipeline_input_with_history !! "input" = Some (VStr "weather today"))
    as Hv by reflexivity.
  assert (pipeline_input_with_history !! "intermediate_steps"
          = Some (VSteps one_step)) as Hsteps by reflexivity.
  assert (pipeline_input_with_history !! "chat_history"
          = Some (VMessages earlier_talk)) as Hhistory by reflexivity.
  split; [exact Hv|]. split; [exact Hsteps|]. split; [exact Hhistory|].
  exact (documented_pipeline_sends_history_input_scratchpad (answering sunny)
           [search] "You are a helpful AI assistant." true
           pipeline_input_with_history (VStr "weather today") earlier_talk
           one_step [] Hv Hsteps (λ _, Hhistory)).
Defined.

Lemma pipeline_needs_intermediate_steps_witness :
  user_input !! "intermediate_steps" = None
  ∧ match create_openai_functions_agent (answering sunny) [search]
            default_prompt with
    | Raises _ => False
    | Returns pipeline =>
        pipeline user_input [] = (Raises (KeyError "intermediate_steps"), [])
    end.
Proof.
  split; [reflexivity|].
  destruct (create_openai_functions_agent (answering sunny) [search]
              default_prompt) as [pipeline|e] eqn:Hcreate.
  - exact (pipeline_needs_intermediate_steps (answering sunny) [search]
             default_prompt pipeline user_input [] Hcreate eq_refl).
  - vm_compute in Hcreate. discriminate Hcreate.
Defined.

Lemma pipeline_ignores_undeclared_inputs_witness :
  pipeline_input !! "intermediate_steps"
  = noisy_pipeline_input !! "intermediate_steps"
  ∧ (∀ k, k ∈ input_variables default_prompt → k ≠ "agent_scratchpad" →
          is_Some (pipeline_input !! k))
  ∧ (∀ k, k ∈ input_variables default_prompt → k ≠ "agent_scratchpad" →
          pipeline_input !! k = noisy_pipeline_input !! k)
  ∧ match create_openai_functions_agent (answering sunny) [search]
            default_prompt with
    | Raises _ => False
    | Returns pipeline =>
        pipeline pipeline_input [] = pipeline noisy_pipeline_input []
    end.
Proof.
  assert (pipeline_input !! "intermediate_steps"
          = noisy_pipeline_input !! "intermediate_steps") as Hsteps
    by reflexivity.
  assert (∀ k, k ∈ input_variables default_prompt → k ≠ "agent_scratchpad" →
               is_Some (pipeline_input !! k)) as Hall.
  { intros k Hk Hne. rewrite default_prompt_variables in Hk.
    apply elem_of_cons in Hk as [->|Hk]; [done|].
    apply list_elem_of_singleton in Hk as ->. by eexists. }
  assert (∀ k, k ∈ input_variables default_prompt → k ≠ "agent_scratchpad" →
               pipeline_input !! k = noisy_pipeline_input !! k) as Hagree.
  { intros k Hk Hne. rewrite default_prompt_variables in Hk.
    apply elem_of_cons in Hk as [->|Hk]; [done|].
    apply list_elem_of_singleton in Hk as ->. reflexivity. }
  split; [exact Hsteps|]. split; [exact Hall|]. split; [exact Hagree|].
  destruct (create_openai_functions_agent (answering sunny) [search]
              default_prompt) as [pipeline|e] eqn:Hcreate.
  - exact (pipeline_ignores_undeclared_inputs (answering sunny) [search]
             default_prompt pipeline pipeline_input noisy_pipeline_input []
             Hcreate Hsteps Hall Hagree).
  - vm_compute in Hcreate. discriminate Hcreate.
Defined.

Lemma pipeline_calls_the_model_with_all_tools_witness :
  match create_openai_functions_agent (answering sunny) [search]
          default_prompt with
  | Raises _ => False
  | Returns pipeline =>
      calls (pipeline pipeline_input []) = []
      ∨ ∃ messages,
          calls (pipeline pipeline_input [])
          = [] ++ [mkModelCall Invoke messages
                     (Some (map format_tool_to_openai_function [search])) None]
          ∧ length (map format_tool_to_openai_function [search])
            = length [search]
  end.
Proof.
  destruct (create_openai_functions_agent (answering sunny) [search]
              default_prompt) as [pipeline|e] eqn:Hcreate.
  - exact (pipeline_calls_the_model_with_all_tools (answering sunny) [search]
             default_prompt pipeline pipeline_input [] Hcreate).
  - vm_compute in Hcreate. discriminate Hcreate.
Defined.
